(** * Invoice processor: line-item extraction, header extraction,
      reconciliation and tabular projection of [app.py]

    The development embeds the functions of [src/app.py] that recover
    structured invoice data from text:

    - [InvoiceExtractor.parse_invoice_data] (header fields),
    - [InvoiceExtractor.extract_line_items] (the four matcher tiers),
    - [InvoiceExtractor.convert_to_excel_format] (three-slot export row),
    - [debug_extraction] (reconciliation figures and their summary),
    - [results] (the summary of the results page),
    - [InvoiceExtractor.extract_text_from_pdf] and
      [InvoiceExtractor.process_folder] (the files of a folder), over a
      file system and a PDF reader that are parameters.

    Python values are represented as follows.

    - [str] is [string]; a character is a code point below 256.
    - [float] is the primitive binary64 [float] of Rocq, with the IEEE
      operations of [PrimFloat]; the integer literal [0] that the source uses
      as the start value of [sum] and as the default of an absent total is
      represented by the float [+0.0], the value Python coerces it to in every
      mixed operation of this program.
    - An exception escaping a function is the [Raise] branch of [result];
      the only exception the text-processing code can raise is
      [ValueError], from [float]; [process_folder] lets the [OSError] of
      [os.listdir] escape.
    - The [re] module is embedded as a backtracking matcher over the pattern
      constructs the source uses, with Python's priorities between
      alternatives (greedy longest first, lazy shortest first, leftmost
      start for [re.search]).

    The file has three parts: the embedding of the source, the vocabulary
    of the properties (sample inputs, predicates, and the header fields as
    the specification words them), and the properties with their proofs. *)

From Stdlib Require Import Bool List ZArith Lia Ascii String DecimalString Floats.
Import ListNotations.

Local Open Scope string_scope.

(** ** Python built-ins *)

Module Py.

(** A computation that returns normally or lets a [ValueError] escape. *)
Inductive result (A : Type) : Type :=
| Ok (a : A)
| Raise.
Arguments Ok {A} a.
Arguments Raise {A}.

Definition bind {A B} (r : result A) (k : A -> result B) : result B :=
  match r with
  | Ok a => k a
  | Raise => Raise
  end.

Definition code (c : ascii) : nat := nat_of_ascii c.

(** [str.isspace] on one character, which is also the class [\s] of a
    [str] pattern. *)
Definition is_space (c : ascii) : bool :=
  let n := code c in
  (((9 <=? n) && (n <=? 13)) || ((28 <=? n) && (n <=? 32))
   || (n =? 133) || (n =? 160))%nat.

(** The class [\d]. *)
Definition is_digit (c : ascii) : bool :=
  let n := code c in ((48 <=? n) && (n <=? 57))%nat.

(** The class [[A-Z]]. *)
Definition is_AZ (c : ascii) : bool :=
  let n := code c in ((65 <=? n) && (n <=? 90))%nat.

Definition newline : ascii := "010"%char.

Fixpoint lstrip (s : string) : string :=
  match s with
  | String c s' => if is_space c then lstrip s' else s
  | EmptyString => EmptyString
  end.

Fixpoint rstrip (s : string) : string :=
  match s with
  | String c s' =>
      match rstrip s' with
      | EmptyString => if is_space c then EmptyString else String c EmptyString
      | r => String c r
      end
  | EmptyString => EmptyString
  end.

(** [s.strip()] *)
Definition strip (s : string) : string := rstrip (lstrip s).

(** [s.split('\n')] *)
Fixpoint split_lines (s : string) : list string :=
  match s with
  | EmptyString => [EmptyString]
  | String c s' =>
      if Ascii.eqb c newline then EmptyString :: split_lines s'
      else match split_lines s' with
           | l :: ls => String c l :: ls
           | [] => [String c EmptyString]
           end
  end.

(** [sub in s] *)
Fixpoint contains (sub s : string) : bool :=
  prefix sub s ||
  match s with
  | String _ s' => contains sub s'
  | EmptyString => false
  end.

(** [s.replace(',', '')] *)
Fixpoint remove_commas (s : string) : string :=
  match s with
  | String c s' =>
      if Ascii.eqb c ","%char then remove_commas s' else String c (remove_commas s')
  | EmptyString => EmptyString
  end.

(** [s.upper()]; the source applies it to text of the class [[A-Z\s:]]
    only, on which it is the identity ([upper_fixed] below); the letters
    a-z are mapped as Python maps them, and the other lower-case letters
    of Latin-1, whose capitals Python may find outside Latin-1, are left
    as they are. *)
Definition upper_char (c : ascii) : ascii :=
  let n := code c in
  if ((97 <=? n) && (n <=? 122))%nat then ascii_of_nat (n - 32) else c.

Fixpoint upper (s : string) : string :=
  match s with
  | String c s' => String (upper_char c) (upper s')
  | EmptyString => EmptyString
  end.

Fixpoint drop (n : nat) (s : string) : string :=
  match n, s with
  | S n', String _ s' => drop n' s'
  | _, _ => s
  end.

(** *** [float(s)]

    The source passes to [float] only what a numeric group
    [[\d,]+\.?\d*] captured, with the commas removed: decimal digits with
    at most one point.  On these strings [float] raises [ValueError] when
    there is no digit at all, and otherwise returns the binary64 number
    nearest to the decimal value (ties to even), infinity when the value
    is out of range.  The model is this function on that alphabet; any
    other character gives [Raise]. *)

Definition digit_val (c : ascii) : Z := Z.of_nat (code c - 48).

(** Digits read so far as an integer, and how many there were. *)
Fixpoint read_digits (s : string) (acc : Z) (cnt : nat) : Z * nat * string :=
  match s with
  | String c s' =>
      if is_digit c then read_digits s' (10 * acc + digit_val c)%Z (S cnt)
      else (acc, cnt, s)
  | EmptyString => (acc, cnt, s)
  end.

(** The binary64 nearest to [n / 10^k], for [0 <= n]: the division of
    the two integers, rounded once. *)
Definition nearest_float (n : Z) (k : nat) : float :=
  match n with
  | Zpos m =>
      SF2Prim (SF64div (S754_finite false m 0)
                       (S754_finite false (Z.to_pos (10 ^ Z.of_nat k)) 0))
  | _ => 0%float
  end.

Definition float_of_string (s : string) : result float :=
  let '(ip, ni, rest) := read_digits s 0%Z 0 in
  match rest with
  | EmptyString =>
      if Nat.eqb ni 0 then Raise else Ok (nearest_float ip 0)
  | String c rest' =>
      if Ascii.eqb c "."%char then
        let '(n, nf, rest'') := read_digits rest' ip 0 in
        match rest'' with
        | EmptyString =>
            if Nat.eqb (ni + nf) 0 then Raise else Ok (nearest_float n nf)
        | _ => Raise
        end
      else Raise
  end.

(** [max(a, b)] on floats: the first argument unless the second is
    greater. *)
Definition max (a b : float) : float :=
  if PrimFloat.ltb a b then b else a.

(** [sum(xs)] on floats: the items added from left to right to the start
    value [0]. *)
Definition sum (xs : list float) : float :=
  fold_left PrimFloat.add xs 0%float.

End Py.

Import Py.

(** ** The [re] module

    A pattern is a sequence of nodes.  The source's patterns repeat single
    characters only and never nest or repeat a group, so a node is a
    repeated character class, a group bracket or an anchor. *)

Module Re.

Inductive node : Type :=
| Chars (c : ascii -> bool) (lo : nat) (hi : option nat) (greedy : bool)
    (** [c{lo,hi}], or [c{lo,hi}?] when not greedy; [hi = None] is no bound *)
| GOpen (g : nat)      (** the opening bracket of group [g] *)
| GClose (g : nat)     (** its closing bracket *)
| Bol                  (** [^] *)
| Eol.                 (** [$] *)

Definition pattern := list node.

(** Spans of the groups: group number, start and end offsets. *)
Definition spans := list (nat * (nat * nat)).

Fixpoint span_of (g : nat) (sp : spans) : option (nat * nat) :=
  match sp with
  | (g', se) :: sp' => if Nat.eqb g g' then Some se else span_of g sp'
  | [] => None
  end.

(** Length of the longest prefix of [s] in class [c], at most [hi]. *)
Fixpoint run_length (c : ascii -> bool) (hi : option nat) (s : string) : nat :=
  match hi with
  | Some 0 => 0
  | _ =>
      match s with
      | String a s' =>
          if c a then S (run_length c (option_map Nat.pred hi) s') else 0
      | EmptyString => 0
      end
  end.

(** The first alternative that succeeds, in the order given. *)
Fixpoint first_some {A} (f : nat -> option A) (ns : list nat) : option A :=
  match ns with
  | n :: ns' =>
      match f n with
      | Some a => Some a
      | None => first_some f ns'
      end
  | [] => None
  end.

(** The repetition counts a quantifier tries, in order: longest first when
    greedy, shortest first when lazy. *)
Definition counts (lo k : nat) (greedy : bool) : list nat :=
  let up := seq lo (S k - lo) in
  if greedy then rev up else up.

(** [run p s pos sp]: match [p] against [s], the rest of the subject from
    offset [pos] on; the spans of the first match found by backtracking. *)
Fixpoint run (p : pattern) (s : string) (pos : nat) (sp : spans)
  : option spans :=
  match p with
  | [] => Some sp
  | Chars c lo hi greedy :: p' =>
      let k := run_length c hi s in
      first_some (fun n => run p' (drop n s) (pos + n) sp) (counts lo k greedy)
  | GOpen g :: p' => run p' s pos ((g, (pos, pos)) :: sp)
  | GClose g :: p' =>
      match span_of g sp with
      | Some (st, _) => run p' s pos ((g, (st, pos)) :: sp)
      | None => None
      end
  | Bol :: p' => if Nat.eqb pos 0 then run p' s pos sp else None
  | Eol :: p' =>
      match s with
      | EmptyString => run p' s pos sp
      | String a EmptyString =>
          if Ascii.eqb a newline then run p' s pos sp else None
      | _ => None
      end
  end.

(** A match object: the subject and the spans of its groups. *)
Record match_obj : Type := MatchObj { subject : string; group_spans : spans }.

(** [re.match(p, s)] *)
Definition re_match (p : pattern) (s : string) : option match_obj :=
  option_map (MatchObj s) (run p s 0 []).

Fixpoint search_from (p : pattern) (s : string) (pos : nat) : option spans :=
  match run p s pos [] with
  | Some sp => Some sp
  | None =>
      match s with
      | String _ s' => search_from p s' (S pos)
      | EmptyString => None
      end
  end.

(** [re.search(p, s)] *)
Definition re_search (p : pattern) (s : string) : option match_obj :=
  option_map (MatchObj s) (search_from p s 0).

(** [m.group(g)]; every group of the source's patterns takes part in
    every match, the empty string stands for a group that did not. *)
Definition group (m : match_obj) (g : nat) : string :=
  match span_of g (group_spans m) with
  | Some (st, en) => substring st (en - st) (subject m)
  | None => EmptyString
  end.

(** *** Pattern syntax *)

Definition one (c : ascii -> bool) : node := Chars c 1 (Some 1) true.
Definition plus (c : ascii -> bool) : node := Chars c 1 None true.
Definition plus_lazy (c : ascii -> bool) : node := Chars c 1 None false.
Definition star (c : ascii -> bool) : node := Chars c 0 None true.
Definition opt (c : ascii -> bool) : node := Chars c 0 (Some 1) true.
Definition times (n : nat) (c : ascii -> bool) : node := Chars c n (Some n) true.

Definition chr (a : ascii) : ascii -> bool := Ascii.eqb a.

(** A literal string. *)
Fixpoint lit (s : string) : pattern :=
  match s with
  | String a s' => one (chr a) :: lit s'
  | EmptyString => []
  end.

(** [(...)] *)
Definition grp (g : nat) (p : pattern) : pattern := GOpen g :: p ++ [GClose g].

(** [.] *)
Definition dot (a : ascii) : bool := negb (Ascii.eqb a newline).
(** [\S] *)
Definition non_space (a : ascii) : bool := negb (is_space a).
(** [[\d,]] *)
Definition digit_or_comma (a : ascii) : bool := is_digit a || Ascii.eqb a ","%char.
(** [[A-Z\s:]] *)
Definition upper_space_colon (a : ascii) : bool :=
  is_AZ a || is_space a || Ascii.eqb a ":"%char.
(** [[A-Z0-9,]] *)
Definition upper_digit_comma (a : ascii) : bool :=
  is_AZ a || is_digit a || Ascii.eqb a ","%char.

(** The numeric group of every pattern: [[\d,]+\.?\d*] in brackets. *)
Definition number (g : nat) : pattern :=
  grp g [plus digit_or_comma; opt (chr "."%char); star is_digit].

End Re.

Import Re.

Local Open Scope float_scope.
Local Set Warnings "-inexact-float".

Notation "x <- a ;; k" := (bind a (fun x => k))
  (at level 61, a at next level, right associativity).

(** ** Data model *)

(** One entry of [items]: the dict with the keys [item_code],
    [description], [quantity], [unit], [price], [tax] and [total]. *)
Record LineItem : Type := mkLineItem {
  item_code : string;
  description : string;
  quantity : float;
  unit : string;
  price : float;
  tax : float;
  total : float
}.

(** The dict [invoice_data] built by [parse_invoice_data]. *)
Record Invoice : Type := mkInvoice {
  filename : string;
  date : string;
  our_reference : string;
  total_excl : float;
  total_incl : float;
  items : list LineItem
}.

(** ** The patterns of the source *)

(** [(\d{2}-\d{2}-\d{4})] *)
Definition date_pattern : pattern :=
  grp 1 [times 2 is_digit; one (chr "-"); times 2 is_digit; one (chr "-");
         times 4 is_digit].

(** [INV(\d+)] *)
Definition ref_pattern : pattern :=
  (lit "INV" ++ grp 1 [plus is_digit])%list.

(** [Total \(Excl\)\s+N] and its [Incl] twin, [N] the numeric group. *)
Definition total_excl_pattern : pattern :=
  (lit "Total (Excl)" ++ [plus is_space] ++ number 1)%list.

Definition total_incl_pattern : pattern :=
  (lit "Total (Incl)" ++ [plus is_space] ++ number 1)%list.

(** [^(\S+)\s+(.+?)\s+N\s+N\s+N\s+N$], [N] the numeric group. *)
Definition general_pattern : pattern :=
  ([Bol] ++ grp 1 [plus non_space] ++ [plus is_space]
  ++ grp 2 [plus_lazy dot] ++ [plus is_space]
  ++ number 3 ++ [plus is_space] ++ number 4 ++ [plus is_space]
  ++ number 5 ++ [plus is_space] ++ number 6 ++ [Eol])%list.

(** [^([A-Z]+\s*:\s*EL)\s+([A-Z\s:]+)\s+N\s+N\s+N$] *)
Definition express_fuel_pattern : pattern :=
  ([Bol]
  ++ grp 1 ([plus is_AZ; star is_space; one (chr ":"); star is_space] ++ lit "EL")
  ++ [plus is_space] ++ grp 2 [plus upper_space_colon] ++ [plus is_space]
  ++ number 3 ++ [plus is_space] ++ number 4 ++ [plus is_space]
  ++ number 5 ++ [Eol])%list.

(** [^([A-Z]+\s*:\s*E[L]?)\s+([A-Z0-9,]+)\s+N\s+N\s+N$] *)
Definition express_alt_pattern : pattern :=
  ([Bol]
  ++ grp 1 [plus is_AZ; star is_space; one (chr ":"); star is_space;
            one (chr "E"); opt (chr "L")]
  ++ [plus is_space] ++ grp 2 [plus upper_digit_comma] ++ [plus is_space]
  ++ number 3 ++ [plus is_space] ++ number 4 ++ [plus is_space]
  ++ number 5 ++ [Eol])%list.

(** [([A-Z\s:]+)\s+N\s+N\s+N], used with [re.search]. *)
Definition legacy_fuel_pattern : pattern :=
  (grp 1 [plus upper_space_colon] ++ [plus is_space]
  ++ number 2 ++ [plus is_space] ++ number 3 ++ [plus is_space] ++ number 4)%list.

(** ** [InvoiceExtractor.extract_line_items] *)

(** [float(m.group(g).replace(',', ''))] *)
Definition float_group (m : match_obj) (g : nat) : result float :=
  float_of_string (remove_commas (group m g)).

(** What one tier does with one line: it appends an item and continues
    with the next line, it falls through to the code after it, or a
    [ValueError] escapes it. *)
Inductive outcome : Type :=
| Emit (it : LineItem)
| Pass
| Escape.

(** Pattern 1, lines 88-117: the conversions and the check run inside
    [try], and [except ValueError: pass] falls through. *)
Definition general_check (qty price total : float) : bool :=
  let expected_total := qty * price in
  abs (total - expected_total) <? expected_total * 0.1.

Definition tier_general (line : string) : outcome :=
  match re_match general_pattern line with
  | Some m =>
      let code := group m 1 in
      let desc := strip (group m 2) in
      match (qty <- float_group m 3 ;;
             price <- float_group m 4 ;;
             tax <- float_group m 5 ;;
             total <- float_group m 6 ;;
             Ok (qty, price, tax, total)) with
      | Ok (qty, price, tax, total) =>
          if general_check qty price total
          then Emit (mkLineItem code desc qty "" price tax total)
          else Pass
      | Raise => Pass
      end
  | None => Pass
  end.

(** Patterns 2 and 2b share the check of lines 134 and 169. *)
Definition express_check (quantity price total : float) : bool :=
  let calculated_total := quantity * price in
  abs (calculated_total - total) <? Py.max (total * 0.01) 0.01.

(** The three conversions of a fuel tier, outside any [try]. *)
Definition three_floats (m : match_obj) (g1 g2 g3 : nat)
  : result (float * float * float) :=
  a <- float_group m g1 ;;
  b <- float_group m g2 ;;
  c <- float_group m g3 ;;
  Ok (a, b, c).

(** Pattern 2, lines 119-144. *)
Definition tier_express (line : string) : outcome :=
  match re_match express_fuel_pattern line with
  | Some m =>
      let item_code := strip (group m 1) in
      let description := strip (group m 2) in
      match three_floats m 3 4 5 with
      | Ok (quantity, price, total) =>
          if express_check quantity price total
          then Emit (mkLineItem item_code description quantity "" price 0 total)
          else Pass
      | Raise => Escape
      end
  | None => Pass
  end.

(** The description pattern 2b synthesises from the code, lines 160-165. *)
Definition alt_description (item_code : string) : string :=
  if contains "LSD" item_code then "LOW SULPHUR DIESEL : EL"
  else if contains "PETROL" item_code then "PETROL : EL"
  else item_code.

(** Pattern 2b, lines 146-179. *)
Definition tier_express_alt (line : string) : outcome :=
  match re_match express_alt_pattern line with
  | Some m =>
      let item_code := strip (group m 1) in
      match three_floats m 3 4 5 with
      | Ok (quantity, price, total) =>
          let description := alt_description item_code in
          if express_check quantity price total
          then Emit (mkLineItem item_code description quantity "" price 0 total)
          else Pass
      | Raise => Escape
      end
  | None => Pass
  end.

(** The keyword gate of line 192. *)
Definition fuel_keywords : list string := ["DIESEL"; "PETROL"; "PARAFFIN"; "EL"].

Definition is_fuel (desc : string) : bool :=
  existsb (fun fuel => contains fuel (upper desc)) fuel_keywords.

(** The choice of (quantity, price, total) among the three values,
    lines 195-205. *)
Definition legacy_assign (val1 val2 val3 : float) : float * float * float :=
  if abs (val3 - val1 * val2) <? val3 * 0.01 then (val1, val2, val3)
  else if abs (val1 - val2 * val3) <? val1 * 0.01 then (val2, val3, val1)
  else if abs (val2 - val1 * val3) <? val2 * 0.01 then (val1, val3, val2)
  else (val1, val2, val3).

(** Pattern 3, lines 181-216. *)
Definition tier_legacy (line : string) : outcome :=
  match re_search legacy_fuel_pattern line with
  | Some m =>
      let desc := strip (group m 1) in
      match three_floats m 2 3 4 with
      | Ok (val1, val2, val3) =>
          if is_fuel desc then
            let '(qty, price, total) := legacy_assign val1 val2 val3 in
            Emit (mkLineItem "" desc qty "" price 0 total)
          else Pass
      | Raise => Escape
      end
  | None => Pass
  end.

(** The tiers in the order of the source: the first that does not fall
    through decides, and those after it are not run. *)
Fixpoint cascade (tiers : list (string -> outcome)) (line : string) : outcome :=
  match tiers with
  | t :: tiers' =>
      match t line with
      | Pass => cascade tiers' line
      | o => o
      end
  | [] => Pass
  end.

Definition tiers : list (string -> outcome) :=
  [tier_general; tier_express; tier_express_alt; tier_legacy].

(** The filter of line 85. *)
Definition skipped (line : string) : bool :=
  String.eqb line "" || contains "Item Code" line
  || contains "Item Description" line.

(** The loop over the lines, with the list [items] built so far. *)
Fixpoint process_lines (lines : list string) (items : list LineItem)
  : result (list LineItem) :=
  match lines with
  | line :: lines' =>
      let line := strip line in
      if skipped line then process_lines lines' items
      else
        match cascade tiers line with
        | Emit it => process_lines lines' (items ++ [it])
        | Pass => process_lines lines' items
        | Escape => Raise
        end
  | [] => Ok items
  end.

Definition extract_line_items (text : string) : result (list LineItem) :=
  process_lines (split_lines text) [].

(** ** [InvoiceExtractor.parse_invoice_data] *)

(** The header fields of lines 37-55. *)
Record Header : Type := mkHeader {
  h_date : string;
  h_our_reference : string;
  h_total_excl : float;
  h_total_incl : float
}.

(** [float(m.group(1).replace(',', '')) if m else 0] *)
Definition total_of (m : option match_obj) : result float :=
  match m with
  | Some m => float_group m 1
  | None => Ok 0
  end.

Definition extract_header (text : string) : result Header :=
  let date_match := re_search date_pattern text in
  let date := match date_match with Some m => group m 1 | None => "" end in
  let ref_match := re_search ref_pattern text in
  let our_reference :=
    match ref_match with Some m => "INV" ++ group m 1 | None => "" end in
  let total_excl_match := re_search total_excl_pattern text in
  let total_incl_match := re_search total_incl_pattern text in
  total_excl <- total_of total_excl_match ;;
  total_incl <- total_of total_incl_match ;;
  Ok (mkHeader date our_reference total_excl total_incl).

(** The whole function: [except Exception] turns any exception of the
    body into the result [None]. *)
Definition parse_invoice_data (text fname : string) : option Invoice :=
  match (h <- extract_header text ;;
         its <- extract_line_items text ;;
         Ok (mkInvoice fname (h_date h) (h_our_reference h)
                       (h_total_excl h) (h_total_incl h) its)) with
  | Ok invoice_data => Some invoice_data
  | Raise => None
  end.

(** ** [InvoiceExtractor.convert_to_excel_format] *)

(** A cell of the export row: text or a number. *)
Inductive cell : Type :=
| Str (s : string)
| Num (x : float).

(** The dict [row], in insertion order. *)
Definition row := list (string * cell).

(** [row[k]] *)
Fixpoint dict_get (k : string) (r : row) : option cell :=
  match r with
  | (k', v) :: r' => if String.eqb k k' then Some v else dict_get k r'
  | [] => None
  end.

(** [row[k] = v]: in place when the key is there, at the end otherwise. *)
Fixpoint dict_set (k : string) (v : cell) (r : row) : row :=
  match r with
  | (k', v') :: r' =>
      if String.eqb k k' then (k', v) :: r' else (k', v') :: dict_set k v r'
  | [] => [(k, v)]
  end.

(** [str(n)] *)
Definition str_of_nat (n : nat) : string :=
  NilEmpty.string_of_uint (Nat.to_uint n).

(** The key [f'Item {i+1} <column>']. *)
Definition item_key (i : nat) (column : string) : string :=
  "Item " ++ str_of_nat (i + 1) ++ " " ++ column.

(** [sum(item['total'] + item.get('tax', 0) for item in invoice['items'])] *)
Definition total_expected_of (its : list LineItem) : float :=
  Py.sum (map (fun item => total item + tax item) its).

(** The body of [for i in range(3)], lines 256-272. *)
Definition fill_slot (its : list LineItem) (r : row) (i : nat) : row :=
  match nth_error its i with
  | Some item =>
      let r := dict_set (item_key i "Code") (Str (item_code item)) r in
      let r := dict_set (item_key i "Description") (Str (description item)) r in
      let r := dict_set (item_key i "Quantity") (Num (quantity item)) r in
      let r := dict_set (item_key i "Unit") (Str (unit item)) r in
      let r := dict_set (item_key i "Price (Ex)") (Num (price item)) r in
      let r := dict_set (item_key i "Tax") (Num (tax item)) r in
      dict_set (item_key i "Total Rand") (Num (total item)) r
  | None =>
      let r := dict_set (item_key i "Code") (Str "") r in
      let r := dict_set (item_key i "Description") (Str "") r in
      let r := dict_set (item_key i "Quantity") (Str "") r in
      let r := dict_set (item_key i "Unit") (Str "") r in
      let r := dict_set (item_key i "Price (Ex)") (Str "") r in
      let r := dict_set (item_key i "Tax") (Str "") r in
      dict_set (item_key i "Total Rand") (Str "") r
  end.

(** The row of one invoice, lines 241-274. *)
Definition excel_row (invoice : Invoice) : row :=
  let total_expected := total_expected_of (items invoice) in
  let r := [("Filename", Str (filename invoice));
            ("Date", Str (date invoice));
            ("Our Reference", Str (our_reference invoice));
            ("Total Expected", Num total_expected);
            ("Total (Incl)", Num (total_incl invoice))] in
  fold_left (fill_slot (items invoice)) (seq 0 3) r.

(** [extracted_data] is the state of the extractor the method reads. *)
Definition convert_to_excel_format (extracted_data : list Invoice) : list row :=
  map excel_row extracted_data.

(** ** [debug_extraction] *)

(** The dict [debug_info], lines 380-390. *)
Record DebugInfo : Type := mkDebugInfo {
  d_filename : string;
  d_date : string;
  d_our_reference : string;
  d_total_incl : float;
  d_total_expected : float;
  d_discrepancy : float;
  d_discrepancy_percent : float;
  d_items_found : nat;
  d_items : list LineItem
}.

Definition debug_info_of (invoice : Invoice) : DebugInfo :=
  let total_expected := total_expected_of (items invoice) in
  let discrepancy := abs (total_expected - total_incl invoice) in
  mkDebugInfo (filename invoice) (date invoice) (our_reference invoice)
    (total_incl invoice) total_expected discrepancy
    (if 0 <? total_incl invoice
     then discrepancy / total_incl invoice * 100 else 0)
    (List.length (items invoice)) (items invoice).

(** The list [debug_data] of lines 374-391. *)
Definition debug_extraction (extracted_data : list Invoice) : list DebugInfo :=
  map debug_info_of extracted_data.

(** The dict [debug_summary] of lines 393-397. *)
Record DebugSummary : Type := mkDebugSummary {
  debug_data : list DebugInfo;
  ds_total_invoices : nat;
  high_discrepancy_count : nat
}.

Definition debug_summary (extracted_data : list Invoice) : DebugSummary :=
  let debug_data := debug_extraction extracted_data in
  mkDebugSummary debug_data (List.length debug_data)
    (List.length (filter (fun d => 5 <? d_discrepancy_percent d) debug_data)).

(** ** [results] *)

(** The values [row[k] for row in rows]: [None] stands for the [KeyError]
    of a row without the key, and for the [TypeError] that adding a cell
    of text to a number would raise. *)
Fixpoint column_values (k : string) (rows : list row) : option (list float) :=
  match rows with
  | r :: rows' =>
      match dict_get k r with
      | Some (Num x) => option_map (cons x) (column_values k rows')
      | _ => None
      end
  | [] => Some []
  end.

(** The dict [summary] of lines 329-333. *)
Record Summary : Type := mkSummary {
  total_invoices : nat;
  total_value_expected : float;
  total_value_incl : float
}.

(** Lines 322-333 of [results]. *)
Definition results_summary (extracted_data : list Invoice) : option Summary :=
  let excel_data := convert_to_excel_format extracted_data in
  match column_values "Total Expected" excel_data,
        column_values "Total (Incl)" excel_data with
  | Some expected, Some incl =>
      Some (mkSummary (List.length excel_data) (Py.sum expected) (Py.sum incl))
  | _, _ => None
  end.

(** ** [InvoiceExtractor.extract_text_from_pdf] and [process_folder] *)

(** [c.lower()] on a code point below 256. *)
Definition lower_char (c : ascii) : ascii :=
  let n := code c in
  if (((65 <=? n) && (n <=? 90))
      || ((192 <=? n) && (n <=? 222) && negb (n =? 215)))%nat
  then ascii_of_nat (n + 32) else c.

(** [s.lower()] *)
Fixpoint lower (s : string) : string :=
  match s with
  | String c s' => String (lower_char c) (lower s')
  | EmptyString => EmptyString
  end.

(** [s.endswith(suffix)] *)
Definition endswith (s suffix : string) : bool :=
  ((String.length suffix <=? String.length s)%nat
   && String.eqb (drop (String.length s - String.length suffix) s) suffix)%bool.

(** [os.path.join(folder, name)], on POSIX paths. *)
Definition path_join (folder name : string) : string :=
  if prefix "/" name then name
  else if String.eqb folder "" || endswith folder "/" then folder ++ name
  else folder ++ "/" ++ name.

(** The name of a PDF file: [filename.lower().endswith('.pdf')]. *)
Definition is_pdf (filename : string) : bool :=
  endswith (lower filename) ".pdf".

Section Folder.

(** The file system and the PDF reader are outside the program.
    [listdir] is [os.listdir]: the names in a folder, or [None] when it
    raises [OSError]; [read_pdf] is what [PyPDF2.PdfReader] and
    [extract_text] give for a path: the text of each page, or [None] when
    opening or reading the file raises. *)
Variable listdir : string -> option (list string).
Variable read_pdf : string -> option (list string).

(** Lines 21-32: the texts of the pages, appended; the empty string when
    anything raised. *)
Definition extract_text_from_pdf (pdf_path : string) : string :=
  match read_pdf pdf_path with
  | Some pages => fold_left append pages ""
  | None => ""
  end.

(** The loop of lines 224-232, with the list [extracted_data] built so
    far. *)
Fixpoint process_files (folder_path : string) (filenames : list string)
    (extracted_data : list Invoice) : list Invoice :=
  match filenames with
  | filename :: filenames' =>
      if is_pdf filename then
        let pdf_path := path_join folder_path filename in
        let text := extract_text_from_pdf pdf_path in
        if String.eqb text "" then
          process_files folder_path filenames' extracted_data
        else
          match parse_invoice_data text filename with
          | Some invoice_data =>
              process_files folder_path filenames'
                            (extracted_data ++ [invoice_data])
          | None => process_files folder_path filenames' extracted_data
          end
      else process_files folder_path filenames' extracted_data
  | [] => extracted_data
  end.

(** Lines 220-234: the new value of [self.extracted_data] and what the
    method returns.  The old value is discarded before the folder is
    listed, so the state is empty when [os.listdir] raises; nothing in
    the method catches that exception. *)
Definition process_folder (folder_path : string)
  : list Invoice * result (list Invoice) :=
  match listdir folder_path with
  | Some filenames =>
      let extracted_data := process_files folder_path filenames [] in
      (extracted_data, Ok extracted_data)
  | None => ([], Raise)
  end.

End Folder.


(** * The vocabulary of the properties *)

(** ** Sample lines, items and invoices *)

(** Scenario A: a line of the general tabular layout and its item. *)
Definition line_A : string := "A100 Widget Assembly 10 5.00 1.50 51.50".

Definition item_A : LineItem :=
  mkLineItem "A100" "Widget Assembly" 10 "" 5.00 1.50 51.50.

(** Scenario B: a line of the primary fuel layout and its item. *)
Definition line_B : string :=
  "LSD : EL LOW SULPHUR DIESEL : EL 20,049.00 24.1264 483,710.19".

Definition item_B : LineItem :=
  mkLineItem "LSD : EL" "LOW SULPHUR DIESEL : EL" 20049.00 "" 24.1264 0
             483710.19.

(** A line of the legacy shape whose first numeric field is a lone comma,
    and its likes for the two fuel tiers. *)
Definition line_comma_legacy : string := "DIESEL , 1 2".
Definition line_comma_express : string := "A:EL A , 1 2".
Definition line_comma_alt : string := "A:E 1 , 1 2".


(** An invoice of four items, with totals 1, 2, 3 and 4. *)
Definition invoice_four : Invoice :=
  mkInvoice "four.pdf" "" "" 0 0
    [mkLineItem "a" "first" 1 "" 1 0 1; mkLineItem "b" "second" 1 "" 2 0 2;
     mkLineItem "c" "third" 1 "" 3 0 3; mkLineItem "d" "fourth" 1 "" 4 0 4].

(** The invoice of a document made of the line of scenario B. *)
Definition invoice_B : Invoice := mkInvoice "b.pdf" "" "" 0 0 [item_B].

(** Scenario E: one item of total 500 and tax 50 against a declared total
    of 600. *)
Definition invoice_E : Invoice :=
  mkInvoice "e.pdf" "" "" 0 600 [mkLineItem "A100" "Widget" 100 "" 5 50 500].

(** [n] times the digit 9. *)
Fixpoint nines (n : nat) : string :=
  match n with
  | O => ""
  | S n' => String "9" (nines n')
  end.

(** A document whose only item and whose declared total are a number of
    310 digits, beyond the range of binary64. *)
Definition overflow_text : string :=
  "DIESEL 1 1 " ++ nines 310 ++ String newline ("Total (Incl) " ++ nines 310).

(** The invoice extracted from it: the two numbers are read as infinity. *)
Definition overflow_invoice : Invoice :=
  mkInvoice "big.pdf" "" "" 0 infinity
            [mkLineItem "" "DIESEL" 1 "" 1 0 infinity].

(** The document of scenario C. *)
Definition text_C : string :=
  "Tax invoice INV00987 of 15-03-2024"
  ++ String newline ("Total (Excl) 1,234.56"
  ++ String newline "Total (Incl) 1,407.40").

(** A document whose declared total is a lone comma. *)
Definition text_comma_total : string := "Total (Excl) ,".

(** A line of the general tabular layout whose quantity is a lone
    comma. *)
Definition line_comma_general : string := "A100 Widget , 5.00 1.50 51.50".

(** A document with a date, a reference and the line of scenario A, whose
    declared total is a lone comma. *)
Definition text_comma_document : string :=
  "Tax invoice INV00987 of 15-03-2024"
  ++ String newline (line_A
  ++ String newline text_comma_total).

(** ** Checks and predicates *)


(** The unit of an item is the empty string. *)
Definition unit_empty (it : LineItem) : Prop := unit it = "".

(** An invoice the extractor built from some document. *)
Definition extracted (invoice : Invoice) : Prop :=
  exists text fname, parse_invoice_data text fname = Some invoice.

(** A number (not NaN) of sign [s]. *)
Definition signed (s : bool) (x : spec_float) : Prop :=
  match x with
  | S754_nan => False
  | S754_zero s' | S754_infinity s' | S754_finite s' _ _ => s' = s
  end.

(** NaN, or a number that is not negative. *)
Definition nan_or_nonneg (x : spec_float) : Prop :=
  match x with
  | S754_nan => True
  | _ => signed false x
  end.

(** Not NaN. *)
Definition is_number (x : spec_float) : Prop :=
  match x with
  | S754_nan => False
  | _ => True
  end.

(** A float that is a number and not negative. *)
Definition amount (x : float) : Prop := signed false (Prim2SF x).

(** An item whose total and tax are non-negative numbers. *)
Definition amounts (it : LineItem) : Prop := amount (total it) /\ amount (tax it).

Local Close Scope float_scope.

(** ** The cells of the export row *)

(** The seven columns of a slot, in the order of the source. *)
Definition slot_columns : list string :=
  ["Code"; "Description"; "Quantity"; "Unit"; "Price (Ex)"; "Tax";
   "Total Rand"].

(** The name of a column of slot [i], counted from 1. *)
Definition column_name (i : nat) (column : string) : string :=
  "Item " ++ str_of_nat i ++ " " ++ column.

(** The cells of slot [i] of a row. *)
Definition slot (r : row) (i : nat) : list (option cell) :=
  map (fun column => dict_get (column_name i column) r) slot_columns.

(** The cells of a slot that holds [item], and of a slot that holds
    none. *)
Definition populated_slot (item : LineItem) : list (option cell) :=
  [Some (Str (item_code item)); Some (Str (description item));
   Some (Num (quantity item)); Some (Str (unit item));
   Some (Num (price item)); Some (Num (tax item));
   Some (Num (total item))].

Definition empty_slot : list (option cell) := repeat (Some (Str "")) 7.

(** The 26 columns of a row. *)
Definition row_columns : list string :=
  (["Filename"; "Date"; "Our Reference"; "Total Expected"; "Total (Incl)"]
   ++ map (column_name 1) slot_columns
   ++ map (column_name 2) slot_columns
   ++ map (column_name 3) slot_columns)%list.

(** ** Matching and searching *)

(** The first [n] characters of [s] are there and in class [c]. *)
Fixpoint all_prefix (c : ascii -> bool) (n : nat) (s : string) : bool :=
  match n with
  | O => true
  | S n' =>
      match s with
      | String a s' => c a && all_prefix c n' s'
      | EmptyString => false
      end
  end.

(** What [here] finds on the first suffix of [text], from the left, on
    which it finds something. *)
Fixpoint first_from_left {A} (here : string -> option A) (text : string)
  : option A :=
  match here text with
  | Some a => Some a
  | None =>
      match text with
      | String _ t => first_from_left here t
      | EmptyString => None
      end
  end.

(** The spans of a pattern with one group that matches [len] characters
    from [off] characters after the start. *)
Definition one_group (pos : nat) (ol : nat * nat) : spans :=
  let '(off, len) := ol in
  [(1, (pos + off, pos + off + len)); (1, (pos + off, pos + off))].

(** Group [g] has a bracket in [p]. *)
Definition mentions (g : nat) (p : pattern) : bool :=
  existsb (fun n => match n with
                    | GOpen g' | GClose g' => Nat.eqb g g'
                    | _ => false
                    end) p.

(** ** The header fields, as the specification words them

    The definitions below do not come from the source: they state, on the
    text alone, what the specification says each header field is, and
    [header_extraction] proves that the searches of the source compute
    them. *)

(** The longest prefix of [s] in class [c]. *)
Fixpoint take_while (c : ascii -> bool) (s : string) : string :=
  match s with
  | String a s' => if c a then String a (take_while c s') else EmptyString
  | EmptyString => EmptyString
  end.

(** Some character of [s] is in class [c]. *)
Fixpoint has (c : ascii -> bool) (s : string) : bool :=
  match s with
  | String a s' => c a || has c s'
  | EmptyString => false
  end.

(** Every character of [s] is in class [c]. *)
Fixpoint all_in (c : ascii -> bool) (s : string) : bool :=
  match s with
  | String a s' => c a && all_in c s'
  | EmptyString => true
  end.

(** [s] starts with two digits, a dash, two digits, a dash and four
    digits. *)
Definition date_shaped (s : string) : bool :=
  match s with
  | String d1 (String d2 (String h1 (String m1 (String m2 (String h2
      (String y1 (String y2 (String y3 (String y4 _))))))))) =>
      is_digit d1 && is_digit d2 && Ascii.eqb h1 "-"
      && is_digit m1 && is_digit m2 && Ascii.eqb h2 "-"
      && is_digit y1 && is_digit y2 && is_digit y3 && is_digit y4
  | _ => false
  end.

Definition date_here (s : string) : option string :=
  if date_shaped s then Some (substring 0 10 s) else None.

(** The first substring of the shape DD-DD-DDDD, else the empty string. *)
Definition first_date (text : string) : string :=
  match first_from_left date_here text with
  | Some d => d
  | None => ""
  end.

(** [INV] and at least one digit start [s]: the digits. *)
Definition reference_here (s : string) : option string :=
  if prefix "INV" s then
    match take_while is_digit (drop 3 s) with
    | EmptyString => None
    | digits => Some digits
    end
  else None.

(** INV and the digits of the first occurrence of INV followed by a
    digit, else the empty string. *)
Definition first_reference (text : string) : string :=
  match first_from_left reference_here text with
  | Some digits => "INV" ++ digits
  | None => ""
  end.

Definition reference_loc (s : string) : option (nat * nat) :=
  if prefix "INV" s then
    let k := run_length is_digit None (drop 3 s) in
    if (1 <=? k)%nat then Some (3, k) else None
  else None.

(** The longest text of the shape of a numeric group that starts [s]:
    digits and commas, at least one, then a point if one follows, then
    the digits after it. *)
Definition numeric_here (s : string) : option string :=
  match take_while digit_or_comma s with
  | EmptyString => None
  | a =>
      Some (a ++ match drop (String.length a) s with
                 | String c r =>
                     if Ascii.eqb c "."
                     then String "." (take_while is_digit r)
                     else EmptyString
                 | EmptyString => EmptyString
                 end)
  end.

(** The anchor starts [s], white space follows it and a numeric value
    follows the white space: the text of that value. *)
Definition total_here (anchor s : string) : option string :=
  if prefix anchor s then
    let r := drop (String.length anchor) s in
    match take_while is_space r with
    | EmptyString => None
    | ws => numeric_here (drop (String.length ws) r)
    end
  else None.

(** The value at the first place where the anchor is followed by white
    space and a numeric value, its commas removed; 0 when there is no
    such place. *)
Definition declared_total (anchor text : string) : result float :=
  match first_from_left (total_here anchor) text with
  | Some v => float_of_string (remove_commas v)
  | None => Ok 0%float
  end.

(** The pattern of a declared total, for either anchor. *)
Definition total_pattern_of (anchor : string) : pattern :=
  (lit anchor ++ [plus is_space] ++ number 1)%list.

Definition number_length (s : string) : nat :=
  let k2 := run_length digit_or_comma None s in
  let k3 := run_length (chr ".") (Some 1) (drop k2 s) in
  let k4 := run_length is_digit None (drop k3 (drop k2 s)) in
  k2 + k3 + k4.

Definition total_loc (anchor s : string) : option (nat * nat) :=
  if prefix anchor s then
    let s1 := drop (String.length anchor) s in
    let w := run_length is_space None s1 in
    let s2 := drop w s1 in
    if ((1 <=? w) && (1 <=? run_length digit_or_comma None s2))%nat
    then Some (String.length anchor + w, number_length s2)
    else None
  else None.

(** ** More vocabulary: texts, lines and folders *)

(** Two texts on either side of a line break. *)
Definition join_lines (a b : string) : string := a ++ String newline b.

(** The four numeric fields of an item are numbers and not negative. *)
Definition nonneg_fields (it : LineItem) : Prop :=
  amount (quantity it) /\ amount (price it) /\ amount (tax it)
  /\ amount (total it).

(** The invoice declares a total: [invoice['total_incl'] > 0]. *)
Definition declares_total (invoice : Invoice) : bool :=
  PrimFloat.ltb 0 (total_incl invoice).

(** What one file of the folder adds to the extracted data: the body of
    the loop of [process_folder] for one name. *)
Definition record_of (read_pdf : string -> option (list string))
    (folder_path filename : string) : option Invoice :=
  if is_pdf filename then
    let text := extract_text_from_pdf read_pdf (path_join folder_path filename) in
    if String.eqb text "" then None else parse_invoice_data text filename
  else None.

(** The four characters [.pdf], each letter in either case. *)
Definition pdf_extension (ext : string) : Prop :=
  exists p d f : ascii,
    ext = String "." (String p (String d (String f "")))
    /\ (p = "p" \/ p = "P")%char /\ (d = "d" \/ d = "D")%char
    /\ (f = "f" \/ f = "F")%char.

(** A folder of two names, and a reader that gives the line of scenario B
    as the one page of any file. *)
Definition folder_listing (folder_path : string) : option (list string) :=
  Some ["b.PDF"; "notes.txt"].

Definition folder_pages (pdf_path : string) : option (list string) :=
  Some [line_B].

(** An invoice whose one item adds up to its declared total. *)
Definition invoice_exact : Invoice := mkInvoice "a.pdf" "" "" 0 53 [item_A].

(** The item has no tax, or is what the general tier gives for a line. *)
Definition taxed_by_general_only (it : LineItem) : Prop :=
  tax it = 0%float \/ exists line, tier_general line = Emit it.

(** * Properties *)

Local Open Scope float_scope.

(** ** Facts on binary64 arithmetic *)

Module FloatFacts.

Lemma mul_comm (x y : float) : x * y = y * x.
Proof.
  apply Prim2SF_inj. rewrite !mul_spec.
  unfold SF64mul, SFmul.
  destruct (Prim2SF x) as [s|s| |s m e], (Prim2SF y) as [s'|s'| |s' m' e'];
    rewrite ?(xorb_comm s s'); try reflexivity.
  now rewrite Pos.mul_comm, Z.add_comm.
Qed.

(** A float that compares equal to [0] is one of the two zeros. *)
Lemma eqb_zero (x : float) :
  (x =? 0) = true -> exists s, Prim2SF x = S754_zero s.
Proof.
  rewrite eqb_spec. change (Prim2SF 0) with (S754_zero false).
  destruct (Prim2SF x) as [s|s| |s m e]; try (now exists s);
    try destruct s; discriminate.
Qed.

(** No absolute value is below a zero. *)
Lemma abs_ltb_zero (x z : float) (s : bool) :
  Prim2SF z = S754_zero s -> (abs x <? z) = false.
Proof.
  intros Hz. rewrite ltb_spec, abs_spec, Hz.
  destruct (Prim2SF x) as [s'|s'| |s' m e]; reflexivity.
Qed.

(** A zero times a finite non-zero constant is a zero. *)
Lemma zero_mul_tenth (x : float) (s : bool) :
  Prim2SF x = S754_zero s -> exists s', Prim2SF (x * 0.1) = S754_zero s'.
Proof.
  intros Hx. rewrite mul_spec, Hx.
  exists (xorb s false). reflexivity.
Qed.

End FloatFacts.

(** [float] on sample strings: a point without digits on one side, a tie
    between two floats (rounded to even), and the strings without a
    digit. *)
Example float_of_string_samples :
  float_of_string "24.1264" = Ok 24.1264 /\
  float_of_string "483710.19" = Ok 483710.19 /\
  float_of_string "0.1" = Ok 0.1 /\
  float_of_string ".5" = Ok 0.5 /\
  float_of_string "5." = Ok 5 /\
  float_of_string "007" = Ok 7 /\
  float_of_string "9007199254740993" = Ok 9007199254740992 /\
  float_of_string (nines 310) = Ok infinity /\
  float_of_string "" = Raise /\
  float_of_string "." = Raise /\
  float_of_string "1.2.3" = Raise.
Proof. repeat split; vm_compute; reflexivity. Qed.

(** ** Signs of rounded results *)

Module Rounding.

Local Open Scope Z_scope.

Lemma signed_nan_or_nonneg x : signed false x -> nan_or_nonneg x.
Proof. destruct x; simpl; tauto. Qed.

Lemma signed_is_number s x : signed s x -> is_number x.
Proof. destruct x; simpl; tauto. Qed.

Lemma iter_pos_invariant {A} (P : A -> Prop) (f : A -> A) :
  (forall x, P x -> P (f x)) ->
  forall n x, P x -> P (iter_pos f n x).
Proof.
  intros Hf. induction n as [n IH|n IH|]; intros x Hx; simpl; auto.
Qed.

Lemma shr_1_nonneg mrs : 0 <= shr_m mrs -> 0 <= shr_m (shr_1 mrs).
Proof.
  destruct mrs as [m r s]. simpl.
  destruct m as [|p|p]; [| destruct p | destruct p]; simpl; lia.
Qed.

Lemma shr_nonneg mrs e n :
  0 <= shr_m mrs -> 0 <= shr_m (fst (shr mrs e n)).
Proof.
  intros H. unfold shr. destruct n; simpl; trivial.
  apply iter_pos_invariant; trivial. apply shr_1_nonneg.
Qed.

Lemma shr_fexp_nonneg m e l :
  0 <= m -> 0 <= shr_m (fst (shr_fexp prec emax m e l)).
Proof.
  intros H. unfold shr_fexp. apply shr_nonneg.
  destruct l as [|[| |]]; exact H.
Qed.

Lemma round_nearest_even_nonneg m l :
  0 <= m -> 0 <= round_nearest_even m l.
Proof.
  intros H. destruct l as [|[| |]]; simpl; try lia.
  destruct (Z.even m); lia.
Qed.

(** Rounding a non-negative mantissa gives a number of the given sign. *)
Lemma binary_round_aux_signed s m e l :
  0 <= m -> signed s (binary_round_aux prec emax s m e l).
Proof.
  intros H. unfold binary_round_aux.
  pose proof (shr_fexp_nonneg m e l H) as H1.
  destruct (shr_fexp prec emax m e l) as [mrs' e'].
  pose proof (shr_fexp_nonneg
                (round_nearest_even (shr_m mrs') (loc_of_shr_record mrs'))
                e' loc_Exact
                (round_nearest_even_nonneg _ _ H1)) as H2.
  destruct (shr_fexp prec emax
              (round_nearest_even (shr_m mrs') (loc_of_shr_record mrs'))
              e' loc_Exact) as [mrs'' e''].
  simpl in H2. destruct (shr_m mrs'') as [|p|p].
  - reflexivity.
  - destruct (e'' <=? emax - prec); reflexivity.
  - lia.
Qed.

Lemma binary_round_signed s m e : signed s (binary_round prec emax s m e).
Proof.
  unfold binary_round.
  destruct (shl_align m e _) as [mz ez].
  apply binary_round_aux_signed. lia.
Qed.

Lemma binary_normalize_is_number m e sz :
  is_number (binary_normalize prec emax m e sz).
Proof.
  destruct m as [|p|p]; simpl.
  - exact I.
  - exact (signed_is_number _ _ (binary_round_signed false p e)).
  - exact (signed_is_number _ _ (binary_round_signed true p e)).
Qed.

(** The difference of a number and a finite float is a number. *)
Lemma sub_is_number x s m e :
  is_number x -> is_number (SF64sub x (S754_finite s m e)).
Proof.
  unfold SF64sub, SFsub.
  destruct x as [sx|sx| |sx mx ex]; simpl; trivial.
  intros _. apply binary_normalize_is_number.
Qed.

Lemma abs_nan_or_nonneg x : nan_or_nonneg (SFabs x).
Proof. destruct x; simpl; trivial. Qed.

Lemma abs_signed x : is_number x -> signed false (SFabs x).
Proof. destruct x; simpl; trivial. Qed.

Lemma div_core_nonneg mx ex my ey :
  0 <= fst (fst (SFdiv_core_binary prec emax (Zpos mx) ex (Zpos my) ey)).
Proof.
  unfold SFdiv_core_binary.
  set (s := ex - ey - _).
  set (m' := match s with Zpos _ => _ | Z0 => _ | Zneg _ => _ end).
  assert (Hm : 0 <= m').
  { subst m'. destruct s; try lia. apply Z.shiftl_nonneg. lia. }
  pose proof (Z.div_pos m' (Zpos my) Hm ltac:(lia)) as Hq.
  unfold Z.div in Hq.
  destruct (Z.div_eucl m' (Zpos my)) as [q r]. exact Hq.
Qed.

(** Dividing by a positive float keeps "NaN or not negative". *)
Lemma div_nan_or_nonneg x y :
  nan_or_nonneg x -> signed false y -> nan_or_nonneg (SF64div x y).
Proof.
  unfold SF64div, SFdiv.
  destruct x as [sx|sx| |sx mx ex], y as [sy|sy| |sy my ey]; simpl;
    try tauto; intros -> ->; try reflexivity.
  pose proof (div_core_nonneg mx ex my ey) as H.
  destruct (SFdiv_core_binary prec emax (Zpos mx) ex (Zpos my) ey)
    as [[mz ez] lz].
  apply signed_nan_or_nonneg. apply binary_round_aux_signed. exact H.
Qed.

(** Dividing a non-negative number by a positive finite float gives a
    non-negative number. *)
Lemma div_signed x my ey :
  signed false x -> signed false (SF64div x (S754_finite false my ey)).
Proof.
  unfold SF64div, SFdiv.
  destruct x as [sx|sx| |sx mx ex]; simpl; try tauto;
    intros ->; try reflexivity.
  pose proof (div_core_nonneg mx ex my ey) as H.
  destruct (SFdiv_core_binary prec emax (Zpos mx) ex (Zpos my) ey)
    as [[mz ez] lz].
  apply binary_round_aux_signed. exact H.
Qed.

Lemma mul_nan_or_nonneg x my ey :
  nan_or_nonneg x -> nan_or_nonneg (SF64mul x (S754_finite false my ey)).
Proof.
  unfold SF64mul, SFmul.
  destruct x as [sx|sx| |sx mx ex]; simpl; try tauto;
    intros ->; try reflexivity.
  apply signed_nan_or_nonneg. apply binary_round_aux_signed. lia.
Qed.

Lemma mul_signed x my ey :
  signed false x -> signed false (SF64mul x (S754_finite false my ey)).
Proof.
  unfold SF64mul, SFmul.
  destruct x as [sx|sx| |sx mx ex]; simpl; try tauto;
    intros ->; try reflexivity.
  apply binary_round_aux_signed. lia.
Qed.

(** The sum of two non-negative numbers is a non-negative number. *)
Lemma add_signed x y :
  signed false x -> signed false y -> signed false (SF64add x y).
Proof.
  unfold SF64add, SFadd.
  destruct x as [sx|sx| |sx mx ex], y as [sy|sy| |sy my ey]; simpl;
    try tauto; intros -> ->; try reflexivity.
  destruct (shl_align mx ex (Z.min ex ey)) as [mx' ex'].
  destruct (shl_align my ey (Z.min ex ey)) as [my' ey'].
  simpl. apply binary_round_signed.
Qed.

Lemma ltb_zero_false x :
  nan_or_nonneg x -> SFltb x (S754_zero false) = false.
Proof.
  destruct x as [sx|sx| |sx mx ex]; simpl; trivial; intros ->; reflexivity.
Qed.

Lemma leb_zero_true x :
  signed false x -> SFleb (S754_zero false) x = true.
Proof.
  destruct x as [sx|sx| |sx mx ex]; simpl; try tauto; intros ->; reflexivity.
Qed.

(** A float above zero is positive: finite or infinite. *)
Lemma positive_signed x :
  SFltb (S754_zero false) x = true -> signed false x.
Proof.
  destruct x as [sx|sx| |sx mx ex]; simpl; try discriminate;
    destruct sx; try discriminate; reflexivity.
Qed.

Lemma positive_finite x :
  SFltb (S754_zero false) x = true ->
  SFltb x (S754_infinity false) = true ->
  exists m e, x = S754_finite false m e.
Proof.
  destruct x as [sx|sx| |sx mx ex]; simpl; try discriminate;
    destruct sx; try discriminate.
  intros _ _. now eexists _, _.
Qed.

End Rounding.

Local Close Scope float_scope.

(** ** Facts on matching *)

Module ReFacts.

Lemma run_length_exact c n : forall s,
  all_prefix c n s = true -> run_length c (Some n) s = n.
Proof.
  induction n as [|n IH]; intros s H; [destruct s; reflexivity|].
  destruct s as [|a s]; [discriminate|]. cbn in H |- *.
  apply andb_true_iff in H. destruct H as [Ha Hs].
  rewrite Ha. f_equal. now apply IH.
Qed.

Lemma run_length_short c n : forall s,
  all_prefix c n s = false -> run_length c (Some n) s < n.
Proof.
  induction n as [|n IH]; intros s H; [discriminate|].
  destruct s as [|a s]; cbn in H |- *; [lia|].
  destruct (c a); [|lia]. cbn in H. apply IH in H. lia.
Qed.

Lemma run_times c n p s pos sp :
  run (times n c :: p) s pos sp
  = if all_prefix c n s then run p (drop n s) (pos + n) sp else None.
Proof.
  unfold times. cbn [run]. unfold counts.
  destruct (all_prefix c n s) eqn:E.
  - rewrite (run_length_exact _ _ _ E).
    replace (S n - n) with 1 by lia. cbn.
    destruct (run p (drop n s) (pos + n) sp); reflexivity.
  - pose proof (run_length_short _ _ _ E) as Hk.
    replace (S (run_length c (Some n) s) - n) with 0 by lia. reflexivity.
Qed.

Lemma run_lit w : forall p s pos sp,
  run (lit w ++ p)%list s pos sp
  = if prefix w s then run p (drop (String.length w) s) (pos + String.length w) sp
    else None.
Proof.
  induction w as [|a w IH]; intros p s pos sp.
  - cbn [lit app String.length drop]. rewrite Nat.add_0_r.
    destruct s; reflexivity.
  - cbn [lit app]. change (one (chr a)) with (times 1 (chr a)).
    rewrite run_times. destruct s as [|b s]; [reflexivity|].
    cbn [all_prefix prefix drop String.length]. unfold chr.
    rewrite andb_true_r.
    destruct (ascii_dec a b) as [->|Hab].
    + rewrite Ascii.eqb_refl, IH.
      replace (pos + 1 + String.length w) with (pos + S (String.length w)) by lia.
      reflexivity.
    + apply Ascii.eqb_neq in Hab. rewrite Hab. reflexivity.
Qed.

(** *** Greedy repetition *)

Lemma first_some_none {A} (f : nat -> option A) ns :
  (forall n, In n ns -> f n = None) -> first_some f ns = None.
Proof.
  induction ns as [|n ns IH]; intros H; [reflexivity|].
  cbn. rewrite (H n (or_introl eq_refl)). apply IH.
  intros m Hm. apply H. now right.
Qed.

Lemma counts_greedy_top lo k :
  lo <= k -> counts lo k true = k :: rev (seq lo (k - lo)).
Proof.
  intros H. unfold counts. replace (S k - lo) with (S (k - lo)) by lia.
  rewrite seq_S, rev_app_distr. cbn. f_equal. lia.
Qed.

(** The longest repetition is tried first. *)
Lemma run_greedy c lo hi p s pos sp :
  let k := run_length c hi s in
  lo <= k ->
  run (Chars c lo hi true :: p) s pos sp
  = match run p (drop k s) (pos + k) sp with
    | Some r => Some r
    | None =>
        first_some (fun n => run p (drop n s) (pos + n) sp)
                   (rev (seq lo (k - lo)))
    end.
Proof.
  intros k H. cbn [run]. fold k. rewrite (counts_greedy_top _ _ H).
  reflexivity.
Qed.

Lemma run_greedy_short c lo hi p s pos sp :
  run_length c hi s < lo ->
  run (Chars c lo hi true :: p) s pos sp = None.
Proof.
  intros H. cbn [run]. unfold counts.
  replace (S (run_length c hi s) - lo) with 0 by lia. reflexivity.
Qed.

(** Within the run of a class, the text goes on with a character of the
    class. *)
Lemma drop_in_run c : forall s n,
  n < run_length c None s ->
  exists a s', drop n s = String a s' /\ c a = true.
Proof.
  induction s as [|a s IH]; intros n H; cbn in H; [lia|].
  destruct (c a) eqn:Ha; [|lia].
  destruct n as [|n]; cbn.
  - now exists a, s.
  - apply IH. cbn in H. lia.
Qed.

Lemma run_open g p s pos sp :
  run (GOpen g :: p) s pos sp = run p s pos ((g, (pos, pos)) :: sp).
Proof. reflexivity. Qed.

Lemma run_close g p s pos sp st en :
  span_of g sp = Some (st, en) ->
  run (GClose g :: p) s pos sp = run p s pos ((g, (st, pos)) :: sp).
Proof. intros H. cbn [run]. rewrite H. reflexivity. Qed.

(** *** Searching *)

Lemma substring_skip pre : forall off len s,
  substring (String.length pre + off) len (pre ++ s) = substring off len s.
Proof.
  induction pre as [|a pre IH]; intros off len s; [reflexivity|].
  cbn. apply IH.
Qed.

Lemma append_snoc pre a s :
  (pre ++ String a EmptyString) ++ s = pre ++ String a s.
Proof. induction pre as [|b pre IH]; cbn; [reflexivity|]. now rewrite IH. Qed.

Lemma length_snoc pre a :
  String.length (pre ++ String a EmptyString) = S (String.length pre).
Proof. induction pre as [|b pre IH]; cbn; [reflexivity|]. now rewrite IH. Qed.

(** When a pattern matches, from any start, what [loc] says, searching
    for it finds the first place from the left where [loc] finds
    something, and group 1 is the text there. *)
Lemma search_first (p : pattern) (loc : string -> option (nat * nat)) :
  (forall s pos, run p s pos [] = option_map (one_group pos) (loc s)) ->
  forall text,
    option_map (fun m => group m 1) (re_search p text)
    = first_from_left
        (fun s => option_map (fun '(off, len) => substring off len s) (loc s))
        text.
Proof.
  intros Hrun text. unfold re_search.
  enough (H : forall s pre,
             option_map (fun sp => group (MatchObj (pre ++ s) sp) 1)
                        (search_from p s (String.length pre))
             = first_from_left
                 (fun s => option_map (fun '(off, len) => substring off len s)
                                      (loc s)) s).
  { specialize (H text EmptyString). cbn in H. rewrite <- H.
    destruct (search_from p text 0); reflexivity. }
  assert (Hg : forall pre s off len,
             group (MatchObj (pre ++ s) (one_group (String.length pre) (off, len))) 1
             = substring off len s).
  { intros pre s off len. unfold group.
    cbn [one_group group_spans span_of subject Nat.eqb].
    replace (String.length pre + off + len - (String.length pre + off))
      with len by lia.
    apply substring_skip. }
  induction s as [|a s IH]; intros pre; cbn [search_from first_from_left];
    rewrite Hrun; destruct (loc _) as [[off len]|]; cbn [option_map].
  - now rewrite Hg.
  - reflexivity.
  - now rewrite Hg.
  - rewrite <- (IH (pre ++ String a EmptyString)).
    rewrite append_snoc, length_snoc. reflexivity.
Qed.

Lemma first_some_some {A} (f : nat -> option A) ns a :
  first_some f ns = Some a -> exists n, In n ns /\ f n = Some a.
Proof.
  induction ns as [|n ns IH]; [discriminate|]. cbn.
  destruct (f n) as [b|] eqn:E.
  - intros [= <-]. exists n. split; [now left | exact E].
  - intros H. destruct (IH H) as [m [Hm Hf]]. exists m. split; [now right | exact Hf].
Qed.

Lemma counts_bound lo k greedy n : In n (counts lo k greedy) -> n <= k.
Proof.
  unfold counts. intros H.
  assert (Hs : In n (seq lo (S k - lo))).
  { destruct greedy; [now apply in_rev in H | exact H]. }
  apply in_seq in Hs. lia.
Qed.

(** The nodes without a bracket of group [g] leave its span as it is. *)
Lemma run_keeps_span g : forall p s pos sp sp',
  mentions g p = false ->
  run p s pos sp = Some sp' -> span_of g sp' = span_of g sp.
Proof.
  induction p as [|node p IH]; intros s pos sp sp' Hm H.
  - cbn in H. congruence.
  - cbn [mentions existsb] in Hm. apply orb_false_iff in Hm.
    destruct Hm as [Hn Hp]. fold (mentions g p) in Hp.
    destruct node as [c lo hi greedy|g'|g'| |]; cbn [run] in H.
    + apply first_some_some in H. destruct H as [n [_ H]].
      exact (IH _ _ _ _ Hp H).
    + rewrite (IH _ _ _ _ Hp H). cbn. now rewrite Hn.
    + destruct (span_of g' sp) as [[st en]|]; [|discriminate].
      rewrite (IH _ _ _ _ Hp H). cbn. now rewrite Hn.
    + destruct (Nat.eqb pos 0); [|discriminate]. exact (IH _ _ _ _ Hp H).
    + destruct s as [|a [|b s]]; try discriminate.
      * exact (IH _ _ _ _ Hp H).
      * destruct (Ascii.eqb a newline); [|discriminate].
        exact (IH _ _ _ _ Hp H).
Qed.


Lemma search_from_some p : forall s pos sp,
  search_from p s pos = Some sp ->
  exists j, run p (drop j s) (pos + j) [] = Some sp.
Proof.
  induction s as [|a s IH]; intros pos sp; cbn [search_from];
    destruct (run p _ pos []) as [sp0|] eqn:E; try discriminate.
  - intros [= <-]. exists 0. now rewrite Nat.add_0_r.
  - intros [= <-]. exists 0. now rewrite Nat.add_0_r.
  - intros H. destruct (IH _ _ H) as [j Hj]. exists (S j).
    cbn [drop]. now rewrite Nat.add_succ_r.
Qed.

End ReFacts.

Import ReFacts.

(** ** Facts on strings and on the header patterns *)

Lemma substring_run_length c : forall s,
  substring 0 (run_length c None s) s = take_while c s.
Proof.
  induction s as [|a s IH]; [reflexivity|].
  cbn. destruct (c a); [|reflexivity]. cbn. now rewrite IH.
Qed.

Lemma length_take_while c : forall s,
  String.length (take_while c s) = run_length c None s.
Proof.
  induction s as [|a s IH]; [reflexivity|].
  cbn. destruct (c a); [|reflexivity]. cbn. now rewrite IH.
Qed.

Lemma substring_drop : forall n m s,
  substring n m s = substring 0 m (drop n s).
Proof.
  induction n as [|n IH]; intros m s; [destruct s; reflexivity|].
  destruct s as [|a s]; cbn; [destruct m; reflexivity|]. apply IH.
Qed.

Lemma drop_drop : forall n m s, drop m (drop n s) = drop (n + m) s.
Proof.
  induction n as [|n IH]; intros m s; [destruct s; reflexivity|].
  destruct s as [|a s]; cbn; [destruct m; reflexivity|]. apply IH.
Qed.

Lemma substring_0_add : forall n m s,
  substring 0 (n + m) s = substring 0 n s ++ substring 0 m (drop n s).
Proof.
  induction n as [|n IH]; intros m s.
  - destruct s; reflexivity.
  - destruct s as [|a s]; cbn; [destruct m; reflexivity|]. now rewrite IH.
Qed.

Lemma first_from_left_ext {A} (f g : string -> option A) :
  (forall s, f s = g s) ->
  forall text, first_from_left f text = first_from_left g text.
Proof.
  intros H. induction text as [|a t IH]; cbn; rewrite H; [reflexivity|].
  now rewrite IH.
Qed.

Lemma date_shaped_prefixes s :
  date_shaped s
  = (let s1 := drop 2 s in
     let s2 := drop 1 s1 in
     let s3 := drop 2 s2 in
     let s4 := drop 1 s3 in
     all_prefix is_digit 2 s && (all_prefix (chr "-") 1 s1
     && (all_prefix is_digit 2 s2 && (all_prefix (chr "-") 1 s3
     && all_prefix is_digit 4 s4)))).
Proof.
  destruct s as [|d1 [|d2 [|h1 [|m1 [|m2 [|h2 [|y1 [|y2 [|y3 [|y4 s]]]]]]]]]];
    cbn [date_shaped all_prefix drop]; unfold chr;
    rewrite ?(Ascii.eqb_sym "-");
    repeat (match goal with
            | |- context [is_digit ?a] => destruct (is_digit a)
            | |- context [Ascii.eqb ?a "-"] => destruct (Ascii.eqb a "-")
            end; cbn [andb]);
    reflexivity.
Qed.

Lemma run_date s pos :
  run date_pattern s pos []
  = option_map (one_group pos) (if date_shaped s then Some (0, 10) else None).
Proof.
  rewrite date_shaped_prefixes.
  unfold date_pattern, grp. cbn [app]. rewrite run_open.
  change (one (chr "-")) with (times 1 (chr "-")).
  rewrite !run_times. cbv zeta.
  destruct (all_prefix is_digit 2 s); [|reflexivity].
  destruct (all_prefix (chr "-") 1 (drop 2 s)); [|reflexivity].
  destruct (all_prefix is_digit 2 (drop 1 (drop 2 s))); [|reflexivity].
  destruct (all_prefix (chr "-") 1 (drop 2 (drop 1 (drop 2 s))));
    [|reflexivity].
  destruct (all_prefix is_digit 4 (drop 1 (drop 2 (drop 1 (drop 2 s)))));
    [|reflexivity].
  rewrite (run_close 1 _ _ _ _ pos pos) by reflexivity.
  cbn [run option_map one_group andb].
  rewrite Nat.add_0_r.
  replace (pos + 2 + 1 + 2 + 1 + 4) with (pos + 10) by lia.
  reflexivity.
Qed.

Lemma search_date text :
  match re_search date_pattern text with
  | Some m => group m 1
  | None => ""
  end = first_date text.
Proof.
  unfold first_date.
  rewrite (first_from_left_ext date_here
             (fun s => option_map (fun '(off, len) => substring off len s)
                         (if date_shaped s then Some (0, 10) else None))).
  - rewrite <- (search_first date_pattern _ run_date).
    destruct (re_search date_pattern text); reflexivity.
  - intros s. unfold date_here. destruct (date_shaped s); reflexivity.
Qed.

Lemma run_reference s pos :
  run ref_pattern s pos [] = option_map (one_group pos) (reference_loc s).
Proof.
  unfold ref_pattern, reference_loc. rewrite run_lit.
  destruct (prefix "INV" s); [|reflexivity].
  unfold grp. cbn [String.length app]. rewrite run_open. unfold plus.
  destruct (1 <=? run_length is_digit None (drop 3 s))%nat eqn:Hk.
  - apply Nat.leb_le in Hk. rewrite run_greedy by exact Hk.
    rewrite (run_close 1 _ _ _ _ (pos + 3) (pos + 3)) by reflexivity.
    reflexivity.
  - apply Nat.leb_gt in Hk. now rewrite run_greedy_short.
Qed.

Lemma take_while_empty c s :
  take_while c s = EmptyString <-> run_length c None s = 0.
Proof.
  rewrite <- length_take_while. destruct (take_while c s); cbn; split;
    congruence.
Qed.

Lemma search_reference text :
  match re_search ref_pattern text with
  | Some m => "INV" ++ group m 1
  | None => ""
  end = first_reference text.
Proof.
  unfold first_reference.
  rewrite (first_from_left_ext reference_here
             (fun s => option_map (fun '(off, len) => substring off len s)
                         (reference_loc s))).
  - rewrite <- (search_first ref_pattern _ run_reference).
    destruct (re_search ref_pattern text); reflexivity.
  - intros s. unfold reference_here, reference_loc.
    destruct (prefix "INV" s); [|reflexivity].
    destruct (1 <=? run_length is_digit None (drop 3 s))%nat eqn:Hk.
    + apply Nat.leb_le in Hk. cbn [option_map].
      rewrite substring_drop, substring_run_length.
      destruct (take_while is_digit (drop 3 s)) eqn:E; [|reflexivity].
      apply take_while_empty in E. lia.
    + apply Nat.leb_gt in Hk.
      assert (E : take_while is_digit (drop 3 s) = EmptyString)
        by (apply take_while_empty; lia).
      now rewrite E.
Qed.

(** A numeric group that ends the pattern takes the longest text of its
    shape. *)
Lemma run_number_last s pos sp :
  run (number 1) s pos sp
  = if (1 <=? run_length digit_or_comma None s)%nat
    then Some ((1, (pos, pos + number_length s)) :: (1, (pos, pos)) :: sp)
    else None.
Proof.
  unfold number, grp. cbn [app]. rewrite run_open. unfold plus, opt, star.
  destruct (1 <=? run_length digit_or_comma None s)%nat eqn:Hk.
  - apply Nat.leb_le in Hk. rewrite run_greedy by exact Hk.
    rewrite run_greedy by lia. rewrite run_greedy by lia.
    rewrite (run_close 1 _ _ _ _ pos pos) by reflexivity.
    cbn [run]. unfold number_length. cbv zeta.
    rewrite !Nat.add_assoc. reflexivity.
  - apply Nat.leb_gt in Hk. now rewrite run_greedy_short.
Qed.

Lemma space_not_digit_or_comma a :
  is_space a = true -> digit_or_comma a = false.
Proof.
  destruct a as [b0 b1 b2 b3 b4 b5 b6 b7].
  destruct b0, b1, b2, b3, b4, b5, b6, b7; vm_compute; congruence.
Qed.

Lemma run_length_head_false c hi a s :
  c a = false -> run_length c hi (String a s) = 0.
Proof. intros H. destruct hi as [[|n]|]; cbn; rewrite ?H; reflexivity. Qed.

Lemma run_total anchor s pos :
  run (total_pattern_of anchor) s pos []
  = option_map (one_group pos) (total_loc anchor s).
Proof.
  unfold total_pattern_of, total_loc. rewrite run_lit.
  destruct (prefix anchor s); [|reflexivity].
  cbn [app]. unfold plus. cbv zeta.
  set (s1 := drop (String.length anchor) s).
  set (w := run_length is_space None s1).
  destruct (1 <=? w)%nat eqn:Hw; cbn [andb].
  - apply Nat.leb_le in Hw. rewrite run_greedy by exact Hw. fold w.
    rewrite run_number_last.
    destruct (1 <=? run_length digit_or_comma None (drop w s1))%nat.
    + cbn [option_map one_group]. rewrite !Nat.add_assoc. reflexivity.
    + cbn [option_map]. apply first_some_none. intros n Hn.
      apply in_rev, in_seq in Hn.
      destruct (drop_in_run is_space s1 n) as [a [s' [Hd Ha]]]; [fold w; lia|].
      rewrite run_number_last, Hd.
      rewrite (run_length_head_false _ _ _ _ (space_not_digit_or_comma _ Ha)).
      reflexivity.
  - apply Nat.leb_gt in Hw. now rewrite run_greedy_short.
Qed.

(** After the longest run of a class comes the end or a character
    outside it. *)
Lemma after_run c : forall s a r,
  drop (run_length c None s) s = String a r -> c a = false.
Proof.
  induction s as [|b s IH]; intros a r H; [discriminate|].
  cbn in H. destruct (c b) eqn:Hb.
  - cbn in H. now apply IH in H.
  - cbn in H. congruence.
Qed.

Lemma run_length_zero c : forall s, run_length c (Some 0) s = 0.
Proof. destruct s; reflexivity. Qed.

Lemma numeric_here_loc s :
  numeric_here s
  = if (1 <=? run_length digit_or_comma None s)%nat
    then Some (substring 0 (number_length s) s) else None.
Proof.
  unfold numeric_here, number_length. cbv zeta.
  destruct (1 <=? run_length digit_or_comma None s)%nat eqn:Hk.
  - apply Nat.leb_le in Hk.
    destruct (take_while digit_or_comma s) eqn:E;
      [apply take_while_empty in E; lia|].
    rewrite <- E. clear E. rewrite length_take_while.
    rewrite <- Nat.add_assoc, substring_0_add, substring_run_length.
    do 2 f_equal. rewrite substring_0_add.
    destruct (drop (run_length digit_or_comma None s) s) as [|c r] eqn:Hd.
    + reflexivity.
    + unfold chr. cbn [run_length option_map Nat.pred].
      rewrite !(Ascii.eqb_sym "." c).
      destruct (Ascii.eqb c ".") eqn:Hc.
      * apply Ascii.eqb_eq in Hc. subst c.
        rewrite ?Ascii.eqb_refl, ?run_length_zero.
        cbn [substring drop append].
        replace (substring 0 0 r) with EmptyString by (destruct r; reflexivity).
        cbn [append]. now rewrite substring_run_length.
      * cbn [substring drop append].
        apply after_run in Hd.
        assert (Hdig : is_digit c = false).
        { unfold digit_or_comma in Hd. now apply orb_false_iff in Hd. }
        rewrite (run_length_head_false _ _ _ _ Hdig). reflexivity.
  - apply Nat.leb_gt in Hk.
    assert (E : take_while digit_or_comma s = EmptyString)
      by (apply take_while_empty; lia).
    now rewrite E.
Qed.

Lemma total_here_loc anchor s :
  option_map (fun '(off, len) => substring off len s) (total_loc anchor s)
  = total_here anchor s.
Proof.
  unfold total_loc, total_here. destruct (prefix anchor s); [|reflexivity].
  cbv zeta.
  set (s1 := drop (String.length anchor) s).
  destruct (1 <=? run_length is_space None s1)%nat eqn:Hw; cbn [andb].
  - apply Nat.leb_le in Hw.
    destruct (take_while is_space s1) eqn:E;
      [apply take_while_empty in E; lia|].
    rewrite <- E. clear E. rewrite length_take_while, numeric_here_loc.
    destruct (1 <=? run_length digit_or_comma None _)%nat; [|reflexivity].
    cbn [option_map]. rewrite substring_drop. subst s1.
    now rewrite drop_drop.
  - apply Nat.leb_gt in Hw.
    assert (E : take_while is_space s1 = EmptyString)
      by (apply take_while_empty; lia).
    now rewrite E.
Qed.

Lemma search_total anchor text :
  total_of (re_search (total_pattern_of anchor) text)
  = declared_total anchor text.
Proof.
  unfold declared_total.
  rewrite <- (first_from_left_ext _ _ (total_here_loc anchor)).
  rewrite <- (search_first _ _ (run_total anchor)).
  destruct (re_search (total_pattern_of anchor) text); reflexivity.
Qed.

(** The header of a document, in terms of the text alone. *)
Lemma extract_header_spec text :
  extract_header text =
    (total_excl <- declared_total "Total (Excl)" text ;;
     total_incl <- declared_total "Total (Incl)" text ;;
     Ok (mkHeader (first_date text) (first_reference text)
                  total_excl total_incl)).
Proof.
  unfold extract_header.
  change total_excl_pattern with (total_pattern_of "Total (Excl)").
  change total_incl_pattern with (total_pattern_of "Total (Incl)").
  now rewrite !search_total, search_date, search_reference.
Qed.

Lemma take_while_all_in c : forall s, all_in c (take_while c s) = true.
Proof.
  induction s as [|a s IH]; [reflexivity|].
  cbn. destruct (c a) eqn:Ha; [|reflexivity]. cbn. now rewrite Ha.
Qed.

Lemma remove_commas_app : forall a t,
  remove_commas (a ++ t) = remove_commas a ++ remove_commas t.
Proof.
  induction a as [|c a IH]; intros t; [reflexivity|].
  cbn. rewrite IH. destruct (Ascii.eqb c ","); reflexivity.
Qed.

Lemma digit_not_comma c : is_digit c = true -> Ascii.eqb c "," = false.
Proof.
  intros H. destruct (Ascii.eqb c ",") eqn:E; [|reflexivity].
  apply Ascii.eqb_eq in E. subst c. discriminate H.
Qed.

Lemma remove_commas_digits : forall d,
  all_in is_digit d = true -> remove_commas d = d.
Proof.
  induction d as [|c d IH]; intros H; [reflexivity|].
  cbn in H. apply andb_true_iff in H. destruct H as [Hc Hd].
  cbn. rewrite (digit_not_comma _ Hc), IH; trivial.
Qed.

(** Removing the commas of digits and commas leaves the digits. *)
Lemma remove_commas_all_digits : forall a,
  all_in digit_or_comma a = true ->
  all_in is_digit (remove_commas a) = true /\
  has is_digit (remove_commas a) = has is_digit a.
Proof.
  induction a as [|c a IH]; intros H; [split; reflexivity|].
  cbn in H. apply andb_true_iff in H. destruct H as [Hc Ha].
  destruct (IH Ha) as [IH1 IH2]. cbn.
  destruct (Ascii.eqb c ",") eqn:E.
  - apply Ascii.eqb_eq in E. subst c. now split.
  - unfold digit_or_comma in Hc. rewrite E, orb_false_r in Hc.
    cbn. rewrite Hc. now split.
Qed.

Lemma read_digits_all : forall d acc cnt rest,
  all_in is_digit d = true ->
  match rest with
  | String c _ => is_digit c = false
  | EmptyString => True
  end ->
  exists z, read_digits (d ++ rest) acc cnt = (z, cnt + String.length d, rest).
Proof.
  induction d as [|c d IH]; intros acc cnt rest Hd Hrest.
  - exists acc. cbn [append String.length]. rewrite Nat.add_0_r.
    destruct rest as [|c r]; [reflexivity|]. cbn. now rewrite Hrest.
  - cbn in Hd. apply andb_true_iff in Hd. destruct Hd as [Hc Hd].
    cbn [append read_digits]. rewrite Hc.
    destruct (IH (10 * acc + digit_val c)%Z (S cnt) rest Hd Hrest) as [z Hz].
    exists z. rewrite Hz. cbn [String.length]. f_equal. f_equal. lia.
Qed.

Lemma has_digit_length : forall d,
  all_in is_digit d = true ->
  has is_digit d = negb (Nat.eqb (String.length d) 0).
Proof.
  destruct d as [|c d]; intros H; [reflexivity|].
  cbn in H. apply andb_true_iff in H. destruct H as [Hc _].
  cbn. now rewrite Hc.
Qed.

Lemma has_app c : forall a t, has c (a ++ t) = has c a || has c t.
Proof.
  induction a as [|x a IH]; intros t; [reflexivity|].
  cbn. now rewrite IH, orb_assoc.
Qed.

(** The conversion of a numeric value succeeds exactly when the value has
    a digit. *)
Lemma float_of_numeric s v :
  numeric_here s = Some v ->
  if has is_digit v
  then exists x, float_of_string (remove_commas v) = Ok x
  else float_of_string (remove_commas v) = Raise.
Proof.
  unfold numeric_here.
  pose proof (take_while_all_in digit_or_comma s) as Ha.
  destruct (take_while digit_or_comma s) as [|a0 a'] eqn:E; [discriminate|].
  rewrite <- E in *. clear E a0 a'.
  set (a := take_while digit_or_comma s) in *.
  destruct (remove_commas_all_digits a Ha) as [Hd Hh].
  intros [= <-]. rewrite remove_commas_app, has_app, <- Hh.
  rewrite (has_digit_length _ Hd). unfold float_of_string.
  destruct (drop (String.length a) s) as [|c r]; [|destruct (Ascii.eqb c ".")].
  - cbn [remove_commas has]. rewrite orb_false_r.
    destruct (read_digits_all (remove_commas a) 0%Z 0 EmptyString Hd I)
      as [z Hz].
    rewrite Hz. cbn [Nat.add].
    destruct (Nat.eqb (String.length (remove_commas a)) 0); cbn [negb];
      [reflexivity | now eexists].
  - pose proof (take_while_all_in is_digit r) as Hr.
    set (d := take_while is_digit r) in *.
    change (remove_commas (String "." d))
      with (String "." (remove_commas d)).
    rewrite (remove_commas_digits _ Hr).
    destruct (read_digits_all (remove_commas a) 0%Z 0 (String "." d) Hd
                eq_refl) as [z Hz].
    rewrite Hz. cbn [Nat.add]. rewrite Ascii.eqb_refl.
    destruct (read_digits_all d z 0 EmptyString Hr I) as [z' Hz'].
    replace (d ++ EmptyString) with d in Hz'
      by (clear; induction d; cbn; congruence).
    rewrite Hz'. cbn [Nat.add has].
    rewrite (has_digit_length _ Hr).
    destruct (String.length (remove_commas a)), (String.length d);
      cbn; try reflexivity; now eexists.
  - cbn [remove_commas has]. rewrite orb_false_r.
    destruct (read_digits_all (remove_commas a) 0%Z 0 EmptyString Hd I)
      as [z Hz].
    rewrite Hz. cbn [Nat.add].
    destruct (Nat.eqb (String.length (remove_commas a)) 0); cbn [negb];
      [reflexivity | now eexists].
Qed.

Lemma total_here_some anchor s v :
  total_here anchor s = Some v -> exists s', numeric_here s' = Some v.
Proof.
  unfold total_here. destruct (prefix anchor s); [|discriminate].
  cbv zeta. destruct (take_while is_space _); [discriminate|].
  intros H. eexists. exact H.
Qed.

Lemma total_here_numeric anchor : forall text v,
  first_from_left (total_here anchor) text = Some v ->
  exists s, numeric_here s = Some v.
Proof.
  induction text as [|a t IH]; intros v; cbn [first_from_left];
    destruct (total_here anchor _) as [v'|] eqn:E;
    try discriminate; try (intros [= <-]; now apply total_here_some in E).
  apply IH.
Qed.

Lemma absent_anchor anchor : forall text,
  contains anchor text = false ->
  first_from_left (total_here anchor) text = None.
Proof.
  induction text as [|a t IH]; cbn [contains first_from_left]; intros H;
    apply orb_false_iff in H; destruct H as [Hp Ht];
    unfold total_here; rewrite Hp; [reflexivity|]. now apply IH.
Qed.

(** ** What the legacy pattern captures *)

Lemma run_length_unbounded_le c : forall n s,
  run_length c (Some n) s <= run_length c None s.
Proof.
  induction n as [|n IH]; intros s; destruct s as [|a s]; cbn; try lia.
  destruct (c a); [|lia]. specialize (IH s). cbn in IH. lia.
Qed.









(** ** The amounts of extracted invoices *)

Lemma parse_invoice_data_items text fname invoice :
  parse_invoice_data text fname = Some invoice ->
  extract_line_items text = Ok (items invoice).
Proof.
  unfold parse_invoice_data.
  destruct (extract_header text) as [h|]; [|discriminate]. simpl.
  destruct (extract_line_items text) as [its|]; [|discriminate]. simpl.
  intros [= <-]. reflexivity.
Qed.

Lemma binary_normalize_nonneg z e :
  (0 <= z)%Z -> signed false (binary_normalize prec emax z e false).
Proof.
  destruct z as [|p|p]; intros H; cbn; [reflexivity | | lia].
  apply Rounding.binary_round_signed.
Qed.

Lemma ldexp_signed s x e :
  signed s x -> signed s (SFldexp prec emax x e).
Proof.
  destruct x as [sx|sx| |sx m ex]; cbn; trivial.
  intros ->. apply Rounding.binary_round_signed.
Qed.

(** The float of a non-negative number of the specification is a
    non-negative number. *)
Lemma SF2Prim_amount y : signed false y -> amount (SF2Prim y).
Proof.
  unfold amount. destruct y as [s|s| |s m e]; cbn [signed];
    try tauto; intros ->; try reflexivity.
  unfold SF2Prim, Z.ldexp. rewrite ldshiftexp_spec, of_uint63_spec.
  apply ldexp_signed, binary_normalize_nonneg.
  apply Uint63.to_Z_bounded.
Qed.

Lemma nearest_float_amount n k : amount (nearest_float n k).
Proof.
  unfold nearest_float. destruct n as [|m|m]; try reflexivity.
  apply SF2Prim_amount. apply (Rounding.div_signed (S754_finite false m 0)).
  reflexivity.
Qed.

Lemma float_of_string_amount s x : float_of_string s = Ok x -> amount x.
Proof.
  unfold float_of_string.
  destruct (read_digits s 0%Z 0) as [[ip ni] rest].
  destruct rest as [|c rest'].
  - destruct (Nat.eqb ni 0); [discriminate|].
    intros [= <-]. apply nearest_float_amount.
  - destruct (Ascii.eqb c "."); [|discriminate].
    destruct (read_digits rest' ip 0) as [[n nf] rest''].
    destruct rest''; [|discriminate].
    destruct (Nat.eqb (ni + nf) 0); [discriminate|].
    intros [= <-]. apply nearest_float_amount.
Qed.

Lemma float_group_amount m g x : float_group m g = Ok x -> amount x.
Proof. apply float_of_string_amount. Qed.

Lemma three_floats_amount m g1 g2 g3 a b c :
  three_floats m g1 g2 g3 = Ok (a, b, c) -> amount a /\ amount b /\ amount c.
Proof.
  unfold three_floats, bind.
  destruct (float_group m g1) as [x|] eqn:E1; [|discriminate].
  destruct (float_group m g2) as [y|] eqn:E2; [|discriminate].
  destruct (float_group m g3) as [z|] eqn:E3; [|discriminate].
  intros [= <- <- <-].
  repeat split; eapply float_group_amount; eassumption.
Qed.

Lemma amount_zero : amount 0%float.
Proof. reflexivity. Qed.

Lemma tier_general_amounts line it : tier_general line = Emit it -> amounts it.
Proof.
  unfold tier_general.
  destruct (re_match general_pattern line) as [m|]; [|discriminate].
  destruct (float_group m 3) as [qty|] eqn:E3; [|discriminate].
  destruct (float_group m 4) as [price|] eqn:E4; [|discriminate].
  destruct (float_group m 5) as [tax|] eqn:E5; [|discriminate].
  destruct (float_group m 6) as [total|] eqn:E6; [|discriminate].
  simpl. destruct (general_check qty price total); [|discriminate].
  intros [= <-]. split; eapply float_group_amount; eassumption.
Qed.

Lemma tier_express_amounts line it : tier_express line = Emit it -> amounts it.
Proof.
  unfold tier_express.
  destruct (re_match express_fuel_pattern line) as [m|]; [|discriminate].
  destruct (three_floats m 3 4 5) as [[[q p] t]|] eqn:E; [|discriminate].
  destruct (express_check q p t); [|discriminate].
  intros [= <-]. apply three_floats_amount in E.
  split; [tauto | exact amount_zero].
Qed.

Lemma tier_express_alt_amounts line it :
  tier_express_alt line = Emit it -> amounts it.
Proof.
  unfold tier_express_alt.
  destruct (re_match express_alt_pattern line) as [m|]; [|discriminate].
  destruct (three_floats m 3 4 5) as [[[q p] t]|] eqn:E; [|discriminate].
  destruct (express_check q p t); [|discriminate].
  intros [= <-]. apply three_floats_amount in E.
  split; [tauto | exact amount_zero].
Qed.

Lemma legacy_assign_total a b c :
  let '(_, _, t) := legacy_assign a b c in t = a \/ t = b \/ t = c.
Proof.
  unfold legacy_assign.
  repeat match goal with |- context [if ?x then _ else _] => destruct x end;
    tauto.
Qed.

Lemma tier_legacy_amounts line it : tier_legacy line = Emit it -> amounts it.
Proof.
  unfold tier_legacy.
  destruct (re_search legacy_fuel_pattern line) as [m|]; [|discriminate].
  destruct (three_floats m 2 3 4) as [[[a b] c]|] eqn:E; [|discriminate].
  destruct (is_fuel (strip (group m 1))); [|discriminate].
  pose proof (legacy_assign_total a b c) as Ht.
  destruct (legacy_assign a b c) as [[q p] t].
  intros [= <-]. apply three_floats_amount in E.
  split; [|exact amount_zero].
  cbn. destruct Ht as [-> | [-> | ->]]; tauto.
Qed.

(** What every tier of a list guarantees of its items, the cascade
    guarantees. *)
Lemma cascade_invariant (P : LineItem -> Prop) : forall ts,
  Forall (fun t => forall line it, t line = Emit it -> P it) ts ->
  forall line it, cascade ts line = Emit it -> P it.
Proof.
  induction ts as [|t ts IH]; intros Hts line it; cbn; [discriminate|].
  inversion Hts as [|? ? Ht Hrest]; subst.
  destruct (t line) eqn:E; try discriminate.
  - intros [= <-]. eapply Ht. eassumption.
  - now apply IH.
Qed.

Lemma process_lines_invariant (P : LineItem -> Prop) :
  (forall line it, cascade tiers line = Emit it -> P it) ->
  forall lines found its,
    Forall P found -> process_lines lines found = Ok its -> Forall P its.
Proof.
  intros HP.
  induction lines as [|raw lines IH]; intros found its Hf; cbn [process_lines].
  - intros [= <-]. exact Hf.
  - destruct (skipped (strip raw)); [now apply IH|].
    destruct (cascade tiers (strip raw)) eqn:E; [| now apply IH | discriminate].
    apply IH. apply Forall_app. split; [exact Hf|].
    constructor; [|constructor]. eapply HP; eassumption.
Qed.

Lemma extract_line_items_amounts text its :
  extract_line_items text = Ok its -> Forall amounts its.
Proof.
  apply (process_lines_invariant amounts); [|constructor].
  apply cascade_invariant. unfold tiers.
  repeat apply Forall_cons; [| | | |apply Forall_nil].
  - exact tier_general_amounts.
  - exact tier_express_amounts.
  - exact tier_express_alt_amounts.
  - exact tier_legacy_amounts.
Qed.

Local Open Scope float_scope.

Lemma add_amount x y : amount x -> amount y -> amount (x + y).
Proof.
  unfold amount. rewrite add_spec. apply Rounding.add_signed.
Qed.

Lemma sum_amount : forall xs acc,
  amount acc -> Forall amount xs -> amount (fold_left PrimFloat.add xs acc).
Proof.
  induction xs as [|x xs IH]; intros acc Ha Hxs; [exact Ha|].
  inversion Hxs; subst. cbn. apply IH; [now apply add_amount | assumption].
Qed.

Lemma total_expected_amount its :
  Forall amounts its -> amount (total_expected_of its).
Proof.
  intros H. unfold total_expected_of, Py.sum.
  apply sum_amount; [exact amount_zero|].
  induction H as [|it its [Ht Hx] _ IH]; cbn; constructor; trivial.
  now apply add_amount.
Qed.

Lemma amount_not_nan x : amount x -> is_nan x = false.
Proof.
  unfold amount, is_nan. rewrite eqb_spec.
  destruct (Prim2SF x) as [s|s| |s m e]; cbn; try tauto; intros ->;
    try reflexivity.
  unfold SFeqb. cbn. now rewrite Z.compare_refl, Pos.compare_cont_refl.
Qed.

(** The expected total of an extracted invoice is a number. *)
Lemma extracted_expected_total invoice :
  extracted invoice ->
  is_nan (total_expected_of (items invoice)) = false.
Proof.
  intros [text [fname H]]. apply parse_invoice_data_items in H.
  apply amount_not_nan, total_expected_amount.
  eapply extract_line_items_amounts. eassumption.
Qed.

(** ** The general tabular tier *)

(** What the tier does once its pattern matched and the four conversions
    succeeded. *)
Lemma tier_general_matched line m qty price tax total :
  re_match general_pattern line = Some m ->
  float_group m 3 = Ok qty -> float_group m 4 = Ok price ->
  float_group m 5 = Ok tax -> float_group m 6 = Ok total ->
  tier_general line =
    if general_check qty price total
    then Emit (mkLineItem (group m 1) (strip (group m 2)) qty "" price tax total)
    else Pass.
Proof.
  intros Hm H3 H4 H5 H6. unfold tier_general.
  rewrite Hm, H3, H4, H5, H6. reflexivity.
Qed.

(** C9: when the product of the parsed quantity and price of a line of
    the general shape is zero, the general tier emits nothing, whatever the
    parsed total (zero included), because no absolute value is strictly
    below zero; the line is then left to the tiers after it. *)
Theorem general_tier_rejects_zero_product :
  forall line m qty price tax total,
    re_match general_pattern line = Some m ->
    float_group m 3 = Ok qty -> float_group m 4 = Ok price ->
    float_group m 5 = Ok tax -> float_group m 6 = Ok total ->
    (qty * price =? 0) = true ->
    general_check qty price total = false /\
    tier_general line = Pass /\
    cascade tiers line
    = cascade [tier_express; tier_express_alt; tier_legacy] line.
Proof.
  intros line m qty price tax total Hm H3 H4 H5 H6 Hz.
  assert (Hc : general_check qty price total = false).
  { unfold general_check.
    destruct (FloatFacts.eqb_zero _ Hz) as [s Hs].
    destruct (FloatFacts.zero_mul_tenth _ _ Hs) as [s' Hs'].
    exact (FloatFacts.abs_ltb_zero _ _ _ Hs'). }
  assert (Hp : tier_general line = Pass).
  { rewrite (tier_general_matched _ _ _ _ _ _ Hm H3 H4 H5 H6), Hc. reflexivity. }
  repeat split; trivial.
  unfold tiers. simpl. rewrite Hp. reflexivity.
Qed.

Lemma general_tier_rejects_zero_product_witness :
  general_check 0 5 0 = false /\
  tier_general "DIESEL X 0 5.00 0 0" = Pass /\
  cascade tiers "DIESEL X 0 5.00 0 0"
  = cascade [tier_express; tier_express_alt; tier_legacy] "DIESEL X 0 5.00 0 0".
Proof.
  eapply general_tier_rejects_zero_product; lazy; reflexivity.
Defined.

(** A conversion that fails inside the general tier is caught there. *)
Lemma tier_general_never_escapes line : tier_general line <> Escape.
Proof.
  unfold tier_general.
  destruct (re_match general_pattern line) as [m|]; [|discriminate].
  destruct (float_group m 3) as [qty|]; [|discriminate].
  destruct (float_group m 4) as [price|]; [|discriminate].
  destruct (float_group m 5) as [tax|]; [|discriminate].
  destruct (float_group m 6) as [total|]; [|discriminate].
  simpl. destruct (general_check qty price total); discriminate.
Qed.

(** C4: the line of scenario A is claimed by the general tier, with the
    item of the scenario; and a line of the general shape whose four
    numeric fields convert is accepted exactly when
    [abs(total - quantity*price) < 0.10 * (quantity*price)]. *)
Theorem general_tier_scenario_and_check :
  (tier_general line_A = Emit item_A /\
   extract_line_items line_A = Ok [item_A]) /\
  forall line m qty price tax total,
    re_match general_pattern line = Some m ->
    float_group m 3 = Ok qty -> float_group m 4 = Ok price ->
    float_group m 5 = Ok tax -> float_group m 6 = Ok total ->
    tier_general line =
      if abs (total - qty * price) <? 0.10 * (qty * price)
      then Emit (mkLineItem (group m 1) (strip (group m 2))
                            qty "" price tax total)
      else Pass.
Proof.
  split.
  - split; vm_compute; reflexivity.
  - intros line m qty price tax total Hm H3 H4 H5 H6.
    rewrite (tier_general_matched _ _ _ _ _ _ Hm H3 H4 H5 H6).
    unfold general_check. now rewrite (FloatFacts.mul_comm 0.10).
Qed.

Lemma general_tier_scenario_and_check_witness :
  tier_general line_A =
    if abs (51.50 - 10 * 5.00) <? 0.10 * (10 * 5.00)
    then Emit item_A else Pass.
Proof.
  etransitivity.
  - eapply (proj2 general_tier_scenario_and_check); lazy; reflexivity.
  - vm_compute; reflexivity.
Defined.

(** ** The fuel tiers *)

Lemma tier_express_matched line m quantity price total :
  re_match express_fuel_pattern line = Some m ->
  three_floats m 3 4 5 = Ok (quantity, price, total) ->
  tier_express line =
    if express_check quantity price total
    then Emit (mkLineItem (strip (group m 1)) (strip (group m 2))
                          quantity "" price 0 total)
    else Pass.
Proof.
  intros Hm Hf. unfold tier_express. rewrite Hm, Hf. reflexivity.
Qed.

(** C3: the line of scenario B falls through the general tier and is
    claimed by the primary fuel tier, with the item of the scenario; the
    check of that tier on a line of its shape whose three numeric fields
    convert is [abs(quantity*price - total) < max(0.01*total, 0.01)]. *)
Theorem express_tier_scenario_and_check :
  (tier_general line_B = Pass /\
   tier_express line_B = Emit item_B /\
   extract_line_items line_B = Ok [item_B]) /\
  forall line m quantity price total,
    re_match express_fuel_pattern line = Some m ->
    three_floats m 3 4 5 = Ok (quantity, price, total) ->
    tier_express line =
      if abs (quantity * price - total) <? Py.max (0.01 * total) 0.01
      then Emit (mkLineItem (strip (group m 1)) (strip (group m 2))
                            quantity "" price 0 total)
      else Pass.
Proof.
  split.
  - repeat split; vm_compute; reflexivity.
  - intros line m quantity price total Hm Hf.
    rewrite (tier_express_matched _ _ _ _ _ Hm Hf).
    unfold express_check. now rewrite (FloatFacts.mul_comm 0.01).
Qed.

Lemma express_tier_scenario_and_check_witness :
  tier_express line_B =
    if abs (20049.00 * 24.1264 - 483710.19) <? Py.max (0.01 * 483710.19) 0.01
    then Emit item_B else Pass.
Proof.
  etransitivity.
  - eapply (proj2 express_tier_scenario_and_check); lazy; reflexivity.
  - vm_compute; reflexivity.
Defined.

Lemma tier_express_alt_matched line m quantity price total :
  re_match express_alt_pattern line = Some m ->
  three_floats m 3 4 5 = Ok (quantity, price, total) ->
  tier_express_alt line =
    if express_check quantity price total
    then Emit (mkLineItem (strip (group m 1))
                          (alt_description (strip (group m 1)))
                          quantity "" price 0 total)
    else Pass.
Proof.
  intros Hm Hf. unfold tier_express_alt. rewrite Hm, Hf. reflexivity.
Qed.

(** ** Conversion failures *)

(** C1: a conversion failure inside the general tier is caught and the
    line falls through, but the fuel tiers and the legacy tier convert
    outside any handler: on these lines the [ValueError] leaves
    [extract_line_items], and [parse_invoice_data] then returns [None]
    for the whole document. *)
Theorem conversion_failure_escapes_later_tiers :
  (float_of_string (remove_commas ",") = Raise) /\
  (tier_general line_comma_legacy = Pass /\
   tier_legacy line_comma_legacy = Escape /\
   extract_line_items line_comma_legacy = Raise /\
   parse_invoice_data line_comma_legacy "a.pdf" = None) /\
  (tier_express line_comma_express = Escape /\
   extract_line_items line_comma_express = Raise) /\
  (tier_express_alt line_comma_alt = Escape /\
   extract_line_items line_comma_alt = Raise).
Proof.
  repeat split; vm_compute; reflexivity.
Qed.

(** ** The legacy tier *)




(** ** Tier priority *)





Local Close Scope float_scope.

(** ** The export row *)

Lemma excel_row_slot invoice i :
  1 <= i <= 3 ->
  slot (excel_row invoice) i =
    match nth_error (items invoice) (i - 1) with
    | Some item => populated_slot item
    | None => empty_slot
    end.
Proof.
  intros Hi.
  assert (Hc : i = 1 \/ i = 2 \/ i = 3) by lia.
  destruct invoice as [fn dt rf te ti its]. unfold excel_row. cbn [items].
  destruct its as [|a [|b [|c rest]]];
    destruct Hc as [-> | [-> | ->]]; reflexivity.
Qed.

Lemma excel_row_columns invoice :
  map fst (excel_row invoice) = row_columns.
Proof.
  destruct invoice as [fn dt rf te ti its]. unfold excel_row. cbn [items].
  destruct its as [|a [|b [|c rest]]]; reflexivity.
Qed.

Lemma excel_row_total_expected invoice :
  dict_get "Total Expected" (excel_row invoice)
  = Some (Num (total_expected_of (items invoice))).
Proof.
  destruct invoice as [fn dt rf te ti its]. unfold excel_row. cbn [items].
  destruct its as [|a [|b [|c rest]]]; reflexivity.
Qed.

(** C7: slot [i] of the row, for [i] from 1 to 3, holds the fields of
    [items[i-1]] when there is such an item and the empty string in each
    of its seven columns otherwise; the row has the 26 columns of three
    slots only, so an item after the third is in no slot; and the cell
    Total Expected is the sum of [total + tax] over all the items. *)
Theorem projection_slots :
  forall invoice i,
    1 <= i <= 3 ->
    slot (excel_row invoice) i =
      match nth_error (items invoice) (i - 1) with
      | Some item => populated_slot item
      | None => empty_slot
      end /\
    (i <= List.length (items invoice) <->
     exists item, nth_error (items invoice) (i - 1) = Some item) /\
    map fst (excel_row invoice) = row_columns /\
    dict_get "Total Expected" (excel_row invoice)
    = Some (Num (Py.sum (map (fun item => (total item + tax item)%float)
                             (items invoice)))).
Proof.
  intros invoice i Hi. repeat split.
  - now apply excel_row_slot.
  - intros Hk. destruct (nth_error (items invoice) (i - 1)) eqn:E.
    + now eexists.
    + apply nth_error_None in E. lia.
  - intros [item E].
    assert (i - 1 < List.length (items invoice)).
    { apply nth_error_Some. congruence. }
    lia.
  - apply excel_row_columns.
  - apply excel_row_total_expected.
Qed.

Lemma projection_slots_witness :
  slot (excel_row invoice_four) 3 =
    match nth_error (items invoice_four) (3 - 1) with
    | Some item => populated_slot item
    | None => empty_slot
    end /\
  (3 <= List.length (items invoice_four) <->
   exists item, nth_error (items invoice_four) (3 - 1) = Some item) /\
  map fst (excel_row invoice_four) = row_columns /\
  dict_get "Total Expected" (excel_row invoice_four)
  = Some (Num (Py.sum (map (fun item => (total item + tax item)%float)
                           (items invoice_four)))).
Proof.
  apply (projection_slots invoice_four 3). lia.
Defined.

(** The fourth item counts in Total Expected and is in no slot. *)
Example invoice_four_row :
  dict_get "Total Expected" (excel_row invoice_four) = Some (Num 10) /\
  slot (excel_row invoice_four) 3
  = populated_slot (mkLineItem "c" "third" 1 "" 3 0 3) /\
  List.length (excel_row invoice_four) = 26.
Proof. repeat split; vm_compute; reflexivity. Qed.

(** ** The unit field *)

Lemma tier_general_unit line it : tier_general line = Emit it -> unit_empty it.
Proof.
  unfold tier_general.
  destruct (re_match general_pattern line) as [m|]; [|discriminate].
  destruct (float_group m 3) as [qty|]; [|discriminate].
  destruct (float_group m 4) as [price|]; [|discriminate].
  destruct (float_group m 5) as [tax|]; [|discriminate].
  destruct (float_group m 6) as [total|]; [|discriminate].
  simpl. destruct (general_check qty price total); [|discriminate].
  intros [= <-]. reflexivity.
Qed.

Lemma tier_express_unit line it : tier_express line = Emit it -> unit_empty it.
Proof.
  unfold tier_express.
  destruct (re_match express_fuel_pattern line) as [m|]; [|discriminate].
  destruct (three_floats m 3 4 5) as [[[q p] t]|]; [|discriminate].
  destruct (express_check q p t); [|discriminate].
  intros [= <-]. reflexivity.
Qed.

Lemma tier_express_alt_unit line it :
  tier_express_alt line = Emit it -> unit_empty it.
Proof.
  unfold tier_express_alt.
  destruct (re_match express_alt_pattern line) as [m|]; [|discriminate].
  destruct (three_floats m 3 4 5) as [[[q p] t]|]; [|discriminate].
  destruct (express_check q p t); [|discriminate].
  intros [= <-]. reflexivity.
Qed.

Lemma tier_legacy_unit line it : tier_legacy line = Emit it -> unit_empty it.
Proof.
  unfold tier_legacy.
  destruct (re_search legacy_fuel_pattern line) as [m|]; [|discriminate].
  destruct (three_floats m 2 3 4) as [[[a b] c]|]; [|discriminate].
  destruct (is_fuel (strip (group m 1))); [|discriminate].
  destruct (legacy_assign a b c) as [[q p] t].
  intros [= <-]. reflexivity.
Qed.

Lemma cascade_unit line it : cascade tiers line = Emit it -> unit_empty it.
Proof.
  apply (cascade_invariant unit_empty). unfold tiers.
  repeat apply Forall_cons; [| | | |apply Forall_nil].
  - exact tier_general_unit.
  - exact tier_express_unit.
  - exact tier_express_alt_unit.
  - exact tier_legacy_unit.
Qed.

Lemma process_lines_unit lines found its :
  Forall unit_empty found ->
  process_lines lines found = Ok its -> Forall unit_empty its.
Proof. apply (process_lines_invariant unit_empty). exact cascade_unit. Qed.

(** C10: every item a tier emits has the empty string as its unit, so has
    every item of [extract_line_items], and the column Item i Unit of the
    row of every extracted invoice is the empty string, in a populated
    slot as in an empty one. *)
Theorem unit_is_always_empty :
  (forall line it,
      (tier_general line = Emit it \/ tier_express line = Emit it \/
       tier_express_alt line = Emit it \/ tier_legacy line = Emit it) ->
      unit it = "") /\
  (forall text its,
      extract_line_items text = Ok its -> Forall (fun it => unit it = "") its) /\
  (forall extracted_data r i,
      Forall extracted extracted_data ->
      In r (convert_to_excel_format extracted_data) ->
      1 <= i <= 3 ->
      dict_get (column_name i "Unit") r = Some (Str "")).
Proof.
  split; [|split].
  - intros line it [H | [H | [H | H]]].
    + exact (tier_general_unit _ _ H).
    + exact (tier_express_unit _ _ H).
    + exact (tier_express_alt_unit _ _ H).
    + exact (tier_legacy_unit _ _ H).
  - intros text its H.
    exact (process_lines_unit _ _ _ (Forall_nil _) H).
  - intros data r i Hdata Hin Hi.
    unfold convert_to_excel_format in Hin. apply in_map_iff in Hin.
    destruct Hin as [invoice [<- Hin]].
    rewrite Forall_forall in Hdata.
    destruct (Hdata _ Hin) as [text [fname Hparse]].
    apply parse_invoice_data_items in Hparse.
    pose proof (process_lines_unit _ _ _ (Forall_nil _) Hparse) as Hunits.
    pose proof (excel_row_slot invoice i Hi) as Hslot.
    apply (f_equal (fun l => nth 3 l None)) in Hslot.
    cbn [slot slot_columns map nth] in Hslot. rewrite Hslot.
    destruct (nth_error (items invoice) (i - 1)) as [item|] eqn:E.
    + cbn [populated_slot nth].
      rewrite Forall_forall in Hunits.
      rewrite (Hunits item (nth_error_In _ _ E)). reflexivity.
    + reflexivity.
Qed.

Lemma unit_is_always_empty_witness :
  unit item_A = "" /\
  Forall (fun it => unit it = "") [item_B] /\
  dict_get (column_name 1 "Unit") (excel_row invoice_B) = Some (Str "").
Proof.
  destruct unit_is_always_empty as [H1 [H2 H3]].
  split; [|split].
  - apply (H1 line_A). left. vm_compute. reflexivity.
  - apply (H2 line_B). vm_compute. reflexivity.
  - apply (H3 [invoice_B]).
    + constructor; [|constructor]. exists line_B, "b.pdf".
      vm_compute. reflexivity.
    + left. reflexivity.
    + lia.
Defined.

(** ** Reconciliation *)

Local Open Scope float_scope.

Lemma not_nan_is_number x :
  is_nan x = false -> is_number (Prim2SF x).
Proof.
  unfold is_nan. rewrite eqb_spec.
  destruct (Prim2SF x); simpl; trivial. discriminate.
Qed.

(** [discrepancy / total_incl * 100] is NaN or not negative when
    [total_incl > 0]. *)
Lemma percent_nan_or_nonneg e t :
  (0 <? t) = true ->
  nan_or_nonneg (Prim2SF (abs (e - t) / t * 100)).
Proof.
  rewrite ltb_spec. change (Prim2SF 0) with (S754_zero false). intros Ht.
  rewrite mul_spec, div_spec, abs_spec.
  change (Prim2SF 100) with (S754_finite false 7036874417766400 (-46)).
  apply Rounding.mul_nan_or_nonneg, Rounding.div_nan_or_nonneg.
  - apply Rounding.abs_nan_or_nonneg.
  - now apply Rounding.positive_signed.
Qed.

(** It is a non-negative number when moreover [total_incl] is finite and
    the expected total is a number. *)
Lemma percent_nonneg e t :
  (0 <? t) = true -> (t <? infinity) = true -> is_nan e = false ->
  signed false (Prim2SF (abs (e - t) / t * 100)).
Proof.
  rewrite !ltb_spec. change (Prim2SF 0) with (S754_zero false).
  change (Prim2SF infinity) with (S754_infinity false).
  intros Ht Hfin He.
  destruct (Rounding.positive_finite _ Ht Hfin) as [m [ex Hm]].
  rewrite mul_spec, div_spec, abs_spec, sub_spec, Hm.
  change (Prim2SF 100) with (S754_finite false 7036874417766400 (-46)).
  apply Rounding.mul_signed, Rounding.div_signed, Rounding.abs_signed.
  apply Rounding.sub_is_number. now apply not_nan_is_number.
Qed.

(** On the invoice extracted from [overflow_text] the declared total is
    above zero and the discrepancy percentage is NaN, which is not
    [>= 0]. *)
Lemma reconciliation_percent_not_nonneg :
  parse_invoice_data overflow_text "big.pdf" = Some overflow_invoice /\
  (0 <? total_incl overflow_invoice) = true /\
  (0 <=? d_discrepancy_percent (debug_info_of overflow_invoice)) = false /\
  is_nan (d_discrepancy_percent (debug_info_of overflow_invoice)) = true.
Proof. repeat split; vm_compute; reflexivity. Qed.

(** C6, amended: for every invoice, the expected total is the sum of
    [total + tax] over all the items, the discrepancy is the absolute value
    of its difference with the declared total, and the percentage is
    [discrepancy / total_incl * 100] when [total_incl > 0] and [0]
    otherwise; the percentage is never below zero, and it is [>= 0] when
    the declared total is above zero and finite and the expected total is
    a number, which it is for every invoice extracted from a document. *)
Theorem reconciliation_figures :
  forall invoice,
    let d := debug_info_of invoice in
    let t := total_incl invoice in
    d_total_expected d
    = Py.sum (map (fun item => total item + tax item) (items invoice)) /\
    d_discrepancy d = abs (d_total_expected d - t) /\
    ((0 <? t) = true -> d_discrepancy_percent d = d_discrepancy d / t * 100) /\
    ((0 <? t) = false -> d_discrepancy_percent d = 0) /\
    (d_discrepancy_percent d <? 0) = false /\
    ((0 <? t) = true -> (t <? infinity) = true ->
     is_nan (d_total_expected d) = false ->
     (0 <=? d_discrepancy_percent d) = true) /\
    (extracted invoice ->
     is_nan (d_total_expected d) = false /\
     ((0 <? t) = true -> (t <? infinity) = true ->
      (0 <=? d_discrepancy_percent d) = true)).
Proof.
  intros invoice d t. subst d t. unfold debug_info_of. cbn.
  assert (Hge : (0 <? total_incl invoice) = true ->
                (total_incl invoice <? infinity) = true ->
                is_nan (total_expected_of (items invoice)) = false ->
                (0 <=? (if 0 <? total_incl invoice
                        then abs (total_expected_of (items invoice)
                                  - total_incl invoice)
                             / total_incl invoice * 100
                        else 0)) = true).
  { intros Ht Hfin He. rewrite Ht.
    rewrite leb_spec. change (Prim2SF 0) with (S754_zero false).
    apply Rounding.leb_zero_true. now apply percent_nonneg. }
  repeat split.
  - intros ->. reflexivity.
  - intros ->. reflexivity.
  - destruct (0 <? total_incl invoice) eqn:Ht; [|reflexivity].
    rewrite ltb_spec. change (Prim2SF 0) with (S754_zero false).
    apply Rounding.ltb_zero_false. now apply percent_nan_or_nonneg.
  - exact Hge.
  - now apply extracted_expected_total.
  - intros Ht Hfin. apply Hge; trivial.
    now apply extracted_expected_total.
Qed.

Example scenario_E :
  d_total_expected (debug_info_of invoice_E) = 550 /\
  d_discrepancy (debug_info_of invoice_E) = 50 /\
  d_discrepancy_percent (debug_info_of invoice_E) = 50 / 600 * 100 /\
  (8.33 <? d_discrepancy_percent (debug_info_of invoice_E)) = true /\
  (d_discrepancy_percent (debug_info_of invoice_E) <? 8.34) = true.
Proof. repeat split; vm_compute; reflexivity. Qed.

Lemma reconciliation_figures_witness :
  d_discrepancy_percent (debug_info_of invoice_E)
  = d_discrepancy (debug_info_of invoice_E) / 600 * 100 /\
  (0 <=? d_discrepancy_percent (debug_info_of invoice_E)) = true.
Proof.
  destruct (reconciliation_figures invoice_E) as (_ & _ & H3 & _ & _ & H6 & _).
  split; [apply H3 | apply H6]; vm_compute; reflexivity.
Defined.

(** ** Header extraction *)

(** C8: the header does not always come back.  Where the first value
    after an anchor is a lone comma, the pattern of the total captures
    the comma alone, [float] raises on what is left of it, and nothing
    around lines 54-55 catches the [ValueError]: header extraction
    raises and [parse_invoice_data] returns [None], so a document loses
    its date, its reference and its items with the total.  The general
    tier meets the same capture on a line of its layout and catches the
    failure (lines 94-117): the line gives no item and nothing is
    raised. *)
Theorem header_extraction_raises :
  (contains "Total (Excl)" text_comma_total = true /\
   option_map (fun m => group m 1)
              (re_search total_excl_pattern text_comma_total) = Some "," /\
   float_of_string (remove_commas ",") = Raise /\
   extract_header text_comma_total = Raise /\
   parse_invoice_data text_comma_total "a.pdf" = None) /\
  (first_date text_comma_document = "15-03-2024" /\
   first_reference text_comma_document = "INV00987" /\
   extract_line_items text_comma_document = Ok [item_A] /\
   extract_header text_comma_document = Raise /\
   parse_invoice_data text_comma_document "a.pdf" = None) /\
  (option_map (fun m => group m 3)
              (re_match general_pattern line_comma_general) = Some "," /\
   tier_general line_comma_general = Pass /\
   extract_line_items line_comma_general = Ok []).
Proof.
  split; [|split].
  - repeat split; vm_compute; reflexivity.
  - repeat split; vm_compute; reflexivity.
  - repeat split; vm_compute; reflexivity.
Qed.

(** What header extraction computes wherever the conversions succeed:
    for every document text, the date is the first substring of the
    shape DD-DD-DDDD (else empty), the reference is INV and the digits of
    the first INV followed by a digit (else empty), and each declared
    total is the value, commas removed, at the first place where its
    anchor is followed by white space and a numeric value, and 0 when
    there is no such place, in particular when the anchor is absent; the
    conversion succeeds exactly when the value has a digit; the record
    of a document that yields one has these header fields.  The document
    of scenario C gives the header of the scenario. *)
Theorem header_extraction :
  (forall text,
      extract_header text =
        (total_excl <- declared_total "Total (Excl)" text ;;
         total_incl <- declared_total "Total (Incl)" text ;;
         Ok (mkHeader (first_date text) (first_reference text)
                      total_excl total_incl))) /\
  (forall anchor text,
      match first_from_left (total_here anchor) text with
      | Some v =>
          if has is_digit v
          then exists x, declared_total anchor text = Ok x
          else declared_total anchor text = Raise
      | None => declared_total anchor text = Ok 0
      end) /\
  (forall anchor text,
      contains anchor text = false -> declared_total anchor text = Ok 0) /\
  (forall text fname invoice,
      parse_invoice_data text fname = Some invoice ->
      date invoice = first_date text /\
      our_reference invoice = first_reference text /\
      declared_total "Total (Excl)" text = Ok (total_excl invoice) /\
      declared_total "Total (Incl)" text = Ok (total_incl invoice)) /\
  (extract_header text_C
   = Ok (mkHeader "15-03-2024" "INV00987" 1234.56 1407.40) /\
   parse_invoice_data text_C "c.pdf"
   = Some (mkInvoice "c.pdf" "15-03-2024" "INV00987" 1234.56 1407.40 [])).
Proof.
  split; [|split; [|split; [|split]]].
  - apply extract_header_spec.
  - intros anchor text. unfold declared_total.
    destruct (first_from_left (total_here anchor) text) as [v|] eqn:E;
      [|reflexivity].
    destruct (total_here_numeric _ _ _ E) as [s Hs].
    exact (float_of_numeric _ _ Hs).
  - intros anchor text H. unfold declared_total.
    now rewrite (absent_anchor _ _ H).
  - intros text fname invoice. unfold parse_invoice_data.
    rewrite extract_header_spec.
    destruct (declared_total "Total (Excl)" text) as [te|]; [|discriminate].
    destruct (declared_total "Total (Incl)" text) as [ti|]; [|discriminate].
    cbn [bind]. destruct (extract_line_items text) as [its|]; [|discriminate].
    intros [= <-]. repeat split.
  - split; vm_compute; reflexivity.
Qed.

Lemma header_extraction_witness :
  declared_total "Total (Incl)" "INV7 of 15-03-2024" = Ok 0.
Proof.
  apply (proj1 (proj2 (proj2 header_extraction))). vm_compute. reflexivity.
Defined.

Local Close Scope float_scope.

(** ** Line by line *)

Lemma split_lines_nonempty s : split_lines s <> [].
Proof.
  destruct s as [|c s]; cbn; [discriminate|].
  destruct (Ascii.eqb c newline); [discriminate|].
  destruct (split_lines s); discriminate.
Qed.

Lemma split_lines_join : forall a b,
  split_lines (join_lines a b) = (split_lines a ++ split_lines b)%list.
Proof.
  unfold join_lines.
  induction a as [|c a IH]; intros b.
  - cbn. reflexivity.
  - cbn [append split_lines]. rewrite IH.
    destruct (Ascii.eqb c newline); [reflexivity|].
    pose proof (split_lines_nonempty a) as Hne.
    destruct (split_lines a) as [|l ls]; [congruence|]. reflexivity.
Qed.

Lemma process_lines_found : forall lines found,
  process_lines lines found
  = match process_lines lines [] with
    | Ok its => Ok (found ++ its)%list
    | Raise => Raise
    end.
Proof.
  induction lines as [|raw lines IH]; intros found; cbn [process_lines].
  - now rewrite app_nil_r.
  - destruct (skipped (strip raw)); [apply IH|].
    destruct (cascade tiers (strip raw)) as [it| |]; [| apply IH | reflexivity].
    rewrite IH, (IH ([] ++ [it])%list).
    destruct (process_lines lines []); [|reflexivity].
    cbn. now rewrite <- app_assoc.
Qed.

Lemma process_lines_app : forall l1 l2 found,
  process_lines (l1 ++ l2) found
  = match process_lines l1 found with
    | Ok its => process_lines l2 its
    | Raise => Raise
    end.
Proof.
  induction l1 as [|raw l1 IH]; intros l2 found; cbn [app process_lines];
    [reflexivity|].
  destruct (skipped (strip raw)); [apply IH|].
  destruct (cascade tiers (strip raw)); [apply IH | apply IH | reflexivity].
Qed.

(** The items of two texts joined by a line break are the items of the
    first followed by the items of the second; an error in either is an
    error of the whole. *)
Theorem extract_line_items_join a b :
  extract_line_items (join_lines a b)
  = (xs <- extract_line_items a ;;
     ys <- extract_line_items b ;;
     Ok (xs ++ ys)%list).
Proof.
  unfold extract_line_items. rewrite split_lines_join, process_lines_app.
  destruct (process_lines (split_lines a) []) as [xs|]; [|reflexivity].
  cbn [bind]. rewrite process_lines_found.
  destruct (process_lines (split_lines b) []); reflexivity.
Qed.

Lemma split_lines_one : forall h,
  has (Ascii.eqb newline) h = false -> split_lines h = [h].
Proof.
  induction h as [|c h IH]; intros H; [reflexivity|].
  cbn [has] in H. apply orb_false_iff in H. destruct H as [Hc Hh].
  cbn [split_lines]. rewrite Ascii.eqb_sym, Hc, (IH Hh). reflexivity.
Qed.

(** A line that is blank or holds one of the two column titles gives no
    item, and putting it between two texts changes nothing. *)
Theorem skipped_line_is_neutral h :
  has (Ascii.eqb newline) h = false ->
  skipped (strip h) = true ->
  extract_line_items h = Ok [] /\
  forall a b,
    extract_line_items (join_lines a (join_lines h b))
    = extract_line_items (join_lines a b).
Proof.
  intros Hnl Hs.
  assert (Hh : extract_line_items h = Ok []).
  { unfold extract_line_items. rewrite (split_lines_one _ Hnl).
    cbn [process_lines]. now rewrite Hs. }
  split; [exact Hh|]. intros a b.
  rewrite !extract_line_items_join, Hh. cbn [bind].
  destruct (extract_line_items a); [|reflexivity]. cbn [bind].
  destruct (extract_line_items b); reflexivity.
Qed.

Lemma skipped_line_is_neutral_witness :
  extract_line_items "Item Code Item Description Quantity Price Total" = Ok [] /\
  forall a b,
    extract_line_items
      (join_lines a (join_lines "Item Code Item Description Quantity Price Total" b))
    = extract_line_items (join_lines a b).
Proof.
  apply skipped_line_is_neutral; vm_compute; reflexivity.
Defined.

(** ** Texts without digits *)

Lemma has_drop c : forall n s, has c (drop n s) = true -> has c s = true.
Proof.
  induction n as [|n IH]; intros s H; [destruct s; exact H|].
  destruct s as [|a s]; [exact H|]. cbn in H |- *.
  rewrite (IH _ H). apply orb_true_r.
Qed.

Lemma run_length_pos_has c hi s :
  1 <= run_length c hi s -> has c s = true.
Proof.
  destruct s as [|a s]; [destruct hi as [[|n]|]; cbn; lia|].
  destruct hi as [[|n]|]; cbn; destruct (c a); cbn; trivial; lia.
Qed.

Lemma counts_lower lo k greedy n : In n (counts lo k greedy) -> lo <= n.
Proof.
  unfold counts. intros H.
  assert (Hs : In n (seq lo (S k - lo))).
  { destruct greedy; [now apply in_rev in H | exact H]. }
  apply in_seq in Hs. lia.
Qed.

(** A pattern with a class that must occur at least once matches only
    text that has a character of the class. *)
Lemma run_needs c lo hi greedy : forall p s pos sp sp',
  run p s pos sp = Some sp' ->
  In (Chars c lo hi greedy) p -> 1 <= lo -> has c s = true.
Proof.
  induction p as [|node p IH]; intros s pos sp sp' Hrun Hin Hlo;
    [destruct Hin|].
  destruct Hin as [-> | Hin].
  - cbn [run] in Hrun. apply first_some_some in Hrun.
    destruct Hrun as [n [Hn _]].
    pose proof (counts_lower _ _ _ _ Hn). pose proof (counts_bound _ _ _ _ Hn).
    apply (run_length_pos_has c hi). lia.
  - destruct node as [c' lo' hi' g'|g'|g'| |]; cbn [run] in Hrun.
    + apply first_some_some in Hrun. destruct Hrun as [n [_ Hrun]].
      apply (has_drop c n). exact (IH _ _ _ _ Hrun Hin Hlo).
    + exact (IH _ _ _ _ Hrun Hin Hlo).
    + destruct (span_of g' sp) as [[st en]|]; [|discriminate].
      exact (IH _ _ _ _ Hrun Hin Hlo).
    + destruct (Nat.eqb pos 0); [|discriminate].
      exact (IH _ _ _ _ Hrun Hin Hlo).
    + destruct s as [|a [|b s]]; try discriminate.
      * exact (IH _ _ _ _ Hrun Hin Hlo).
      * destruct (Ascii.eqb a newline); [|discriminate].
        exact (IH _ _ _ _ Hrun Hin Hlo).
Qed.

Lemma re_match_needs c lo hi greedy p s :
  In (Chars c lo hi greedy) p -> 1 <= lo ->
  has c s = false -> re_match p s = None.
Proof.
  intros Hin Hlo Hs. unfold re_match.
  destruct (run p s 0 []) as [sp|] eqn:E; [|reflexivity].
  rewrite (run_needs _ _ _ _ _ _ _ _ _ E Hin Hlo) in Hs. discriminate.
Qed.

Lemma re_search_needs c lo hi greedy p s :
  In (Chars c lo hi greedy) p -> 1 <= lo ->
  has c s = false -> re_search p s = None.
Proof.
  intros Hin Hlo Hs. unfold re_search.
  destruct (search_from p s 0) as [sp|] eqn:E; [|reflexivity].
  apply search_from_some in E. destruct E as [j E].
  pose proof (run_needs _ _ _ _ _ _ _ _ _ E Hin Hlo) as H.
  apply has_drop in H. congruence.
Qed.

Ltac find_node :=
  cbn [app In lit grp number];
  repeat (first [left; reflexivity | right]).

(** A line without a digit or a comma falls through every tier. *)
Lemma cascade_without_numbers line :
  has digit_or_comma line = false -> cascade tiers line = Pass.
Proof.
  intros H. unfold tiers. cbn [cascade].
  unfold tier_general, tier_express, tier_express_alt, tier_legacy.
  rewrite (re_match_needs digit_or_comma 1 None true general_pattern);
    [| unfold general_pattern; find_node | lia | exact H].
  rewrite (re_match_needs digit_or_comma 1 None true express_fuel_pattern);
    [| unfold express_fuel_pattern; find_node | lia | exact H].
  rewrite (re_match_needs digit_or_comma 1 None true express_alt_pattern);
    [| unfold express_alt_pattern; find_node | lia | exact H].
  rewrite (re_search_needs digit_or_comma 1 None true legacy_fuel_pattern);
    [| unfold legacy_fuel_pattern; find_node | lia | exact H].
  reflexivity.
Qed.

Lemma has_lstrip c : forall s, has c (lstrip s) = true -> has c s = true.
Proof.
  induction s as [|a s IH]; intros H; [exact H|].
  cbn in H. destruct (is_space a); [|exact H].
  cbn. rewrite (IH H). apply orb_true_r.
Qed.

Lemma has_rstrip c : forall s, has c (rstrip s) = true -> has c s = true.
Proof.
  induction s as [|a s IH]; intros H; [exact H|].
  cbn in H. destruct (rstrip s) as [|b r].
  - destruct (is_space a); [discriminate|]. cbn in H.
    rewrite orb_false_r in H. cbn. now rewrite H.
  - cbn [has] in H. apply orb_true_iff in H. cbn [has].
    destruct H as [H | H]; [now rewrite H|].
    rewrite (IH H). apply orb_true_r.
Qed.

Lemma has_strip c s : has c (strip s) = true -> has c s = true.
Proof. intros H. now apply has_lstrip, has_rstrip. Qed.

Lemma has_split_lines c : forall s l,
  In l (split_lines s) -> has c l = true -> has c s = true.
Proof.
  induction s as [|a s IH]; intros l Hin Hl.
  - destruct Hin as [<- | []]. exact Hl.
  - cbn [split_lines] in Hin. cbn [has].
    destruct (Ascii.eqb a newline).
    + destruct Hin as [<- | Hin]; [discriminate|].
      rewrite (IH _ Hin Hl). apply orb_true_r.
    + pose proof (split_lines_nonempty s) as Hne.
      destruct (split_lines s) as [|l0 ls]; [congruence|].
      destruct Hin as [<- | Hin].
      * cbn [has] in Hl. apply orb_true_iff in Hl.
        destruct Hl as [Hl | Hl]; [now rewrite Hl|].
        rewrite (IH l0 (or_introl eq_refl) Hl). apply orb_true_r.
      * rewrite (IH l (or_intror Hin) Hl). apply orb_true_r.
Qed.

Lemma process_lines_pass : forall lines found,
  (forall raw, In raw lines -> cascade tiers (strip raw) = Pass) ->
  process_lines lines found = Ok found.
Proof.
  induction lines as [|raw lines IH]; intros found H; [reflexivity|].
  cbn [process_lines]. rewrite (H raw (or_introl eq_refl)).
  destruct (skipped (strip raw)); apply IH; intros r Hr; apply H; now right.
Qed.

Lemma not_has_false c s : has c s <> true -> has c s = false.
Proof. destruct (has c s); congruence. Qed.

Lemma extract_line_items_without_numbers text :
  has digit_or_comma text = false -> extract_line_items text = Ok [].
Proof.
  intros H. apply process_lines_pass. intros raw Hin.
  apply cascade_without_numbers, not_has_false. intros Hs.
  apply has_strip in Hs. rewrite (has_split_lines _ _ _ Hin Hs) in H.
  discriminate.
Qed.

Lemma has_weaken (c d : ascii -> bool) :
  (forall a, c a = true -> d a = true) ->
  forall s, has d s = false -> has c s = false.
Proof.
  intros Hcd. induction s as [|a s IH]; intros H; [reflexivity|].
  cbn in H |- *. apply orb_false_iff in H. destruct H as [Ha Hs].
  rewrite (IH Hs), orb_false_r.
  destruct (c a) eqn:E; [|reflexivity]. rewrite (Hcd _ E) in Ha. discriminate.
Qed.

(** A document without a digit or a comma gives the empty record: no
    date, no reference, totals of zero and no item, never an error. *)
Theorem document_without_numbers text fname :
  has digit_or_comma text = false ->
  parse_invoice_data text fname = Some (mkInvoice fname "" "" 0 0 []).
Proof.
  intros H.
  assert (Hd : has is_digit text = false).
  { apply (has_weaken is_digit digit_or_comma); [|exact H].
    intros a Ha. unfold digit_or_comma. now rewrite Ha. }
  unfold parse_invoice_data, extract_header.
  rewrite (re_search_needs is_digit 2 (Some 2) true date_pattern);
    [| unfold date_pattern; find_node | lia | exact Hd].
  rewrite (re_search_needs is_digit 1 None true ref_pattern);
    [| unfold ref_pattern; find_node | lia | exact Hd].
  rewrite (re_search_needs digit_or_comma 1 None true total_excl_pattern);
    [| unfold total_excl_pattern; find_node | lia | exact H].
  rewrite (re_search_needs digit_or_comma 1 None true total_incl_pattern);
    [| unfold total_incl_pattern; find_node | lia | exact H].
  cbn [total_of bind]. rewrite (extract_line_items_without_numbers _ H).
  reflexivity.
Qed.

Lemma document_without_numbers_witness :
  parse_invoice_data "Thank you for your business" "note.pdf"
  = Some (mkInvoice "note.pdf" "" "" 0 0 []).
Proof. apply document_without_numbers. vm_compute. reflexivity. Defined.

(** ** The code of a general-tier item *)

Lemma all_in_has_not c : forall s,
  all_in (fun a => negb (c a)) s = true -> has c s = false.
Proof.
  induction s as [|a s IH]; intros H; [reflexivity|].
  cbn in H |- *. apply andb_true_iff in H. destruct H as [Ha Hs].
  rewrite (IH Hs). apply negb_true_iff in Ha. now rewrite Ha.
Qed.

(** Group 1 of a match of the general pattern is the first word of the
    line: its characters up to the first white space. *)
Lemma general_code line m :
  re_match general_pattern line = Some m ->
  group m 1 = take_while non_space line /\
  1 <= run_length non_space None line.
Proof.
  unfold re_match.
  destruct (run general_pattern line 0 []) as [sp|] eqn:E; [|discriminate].
  intros [= <-].
  change general_pattern
    with (Bol :: GOpen 1 :: Chars non_space 1 None true :: GClose 1
          :: Chars is_space 1 None true
          :: (grp 2 [plus_lazy dot] ++ [plus is_space]
              ++ number 3 ++ [plus is_space] ++ number 4 ++ [plus is_space]
              ++ number 5 ++ [plus is_space] ++ number 6 ++ [Eol])%list) in E.
  set (rest := (grp 2 [plus_lazy dot] ++ _)%list) in E.
  assert (Hrest : mentions 1 rest = false) by reflexivity.
  clearbody rest.
  cbn [run Nat.eqb] in E. apply first_some_some in E.
  destruct E as [n [Hn E]].
  pose proof (counts_lower _ _ _ _ Hn) as Hlo.
  pose proof (counts_bound _ _ _ _ Hn) as Hhi.
  cbn [span_of Nat.eqb] in E.
  apply first_some_some in E. destruct E as [n' [Hn' E]].
  pose proof (counts_lower _ _ _ _ Hn') as Hlo'.
  pose proof (counts_bound _ _ _ _ Hn') as Hhi'.
  pose proof (run_keeps_span 1 _ _ _ _ _ Hrest E) as Hspan.
  cbn [span_of Nat.eqb] in Hspan.
  assert (Hk : n = run_length non_space None line).
  { destruct (Nat.eq_dec n (run_length non_space None line)) as [|Hne];
      [assumption|].
    destruct (drop_in_run non_space line n) as [a [s' [Hd Ha]]]; [lia|].
    rewrite Hd in Hhi'. unfold non_space in Ha. apply negb_true_iff in Ha.
    rewrite (run_length_head_false _ _ _ _ Ha) in Hhi'. lia. }
  split; [|lia].
  unfold group. cbn [group_spans subject]. rewrite Hspan.
  replace (0 + n - 0) with n by lia. subst n. apply substring_run_length.
Qed.

(** The code of an item of the general tier is the first word of its
    line: it is not empty and holds no white space. *)
Theorem general_item_code line it :
  tier_general line = Emit it ->
  item_code it = take_while non_space line /\
  item_code it <> "" /\
  has is_space (item_code it) = false.
Proof.
  unfold tier_general.
  destruct (re_match general_pattern line) as [m|] eqn:Hm; [|discriminate].
  destruct (float_group m 3) as [qty|]; [|discriminate].
  destruct (float_group m 4) as [price|]; [|discriminate].
  destruct (float_group m 5) as [tax|]; [|discriminate].
  destruct (float_group m 6) as [total|]; [|discriminate].
  simpl. destruct (general_check qty price total); [|discriminate].
  intros [= <-]. cbn [item_code].
  destruct (general_code _ _ Hm) as [Hc Hk]. rewrite Hc.
  repeat split.
  - intros E. apply take_while_empty in E. lia.
  - apply all_in_has_not. apply (take_while_all_in non_space).
Qed.

Lemma general_item_code_witness :
  item_code item_A = take_while non_space line_A /\
  item_code item_A <> "" /\
  has is_space (item_code item_A) = false.
Proof. apply general_item_code. vm_compute. reflexivity. Defined.

(** ** The signs of the extracted amounts *)

Lemma tier_general_fields line it :
  tier_general line = Emit it -> nonneg_fields it.
Proof.
  unfold tier_general.
  destruct (re_match general_pattern line) as [m|]; [|discriminate].
  destruct (float_group m 3) as [qty|] eqn:E3; [|discriminate].
  destruct (float_group m 4) as [price|] eqn:E4; [|discriminate].
  destruct (float_group m 5) as [tax|] eqn:E5; [|discriminate].
  destruct (float_group m 6) as [total|] eqn:E6; [|discriminate].
  simpl. destruct (general_check qty price total); [|discriminate].
  intros [= <-]. repeat split; eapply float_group_amount; eassumption.
Qed.

Lemma tier_express_fields line it :
  tier_express line = Emit it -> nonneg_fields it.
Proof.
  unfold tier_express.
  destruct (re_match express_fuel_pattern line) as [m|]; [|discriminate].
  destruct (three_floats m 3 4 5) as [[[q p] t]|] eqn:E; [|discriminate].
  destruct (express_check q p t); [|discriminate].
  intros [= <-]. apply three_floats_amount in E.
  unfold nonneg_fields; cbn. pose proof amount_zero. tauto.
Qed.

Lemma tier_express_alt_fields line it :
  tier_express_alt line = Emit it -> nonneg_fields it.
Proof.
  unfold tier_express_alt.
  destruct (re_match express_alt_pattern line) as [m|]; [|discriminate].
  destruct (three_floats m 3 4 5) as [[[q p] t]|] eqn:E; [|discriminate].
  destruct (express_check q p t); [|discriminate].
  intros [= <-]. apply three_floats_amount in E.
  unfold nonneg_fields; cbn. pose proof amount_zero. tauto.
Qed.

Lemma legacy_assign_among a b c :
  let '(q, p, t) := legacy_assign a b c in
  (q = a \/ q = b \/ q = c) /\ (p = a \/ p = b \/ p = c)
  /\ (t = a \/ t = b \/ t = c).
Proof.
  unfold legacy_assign.
  repeat match goal with |- context [if ?x then _ else _] => destruct x end;
    tauto.
Qed.

Lemma tier_legacy_fields line it :
  tier_legacy line = Emit it -> nonneg_fields it.
Proof.
  unfold tier_legacy.
  destruct (re_search legacy_fuel_pattern line) as [m|]; [|discriminate].
  destruct (three_floats m 2 3 4) as [[[a b] c]|] eqn:E; [|discriminate].
  destruct (is_fuel (strip (group m 1))); [|discriminate].
  pose proof (legacy_assign_among a b c) as Hperm.
  destruct (legacy_assign a b c) as [[q p] t].
  intros [= <-]. apply three_floats_amount in E.
  destruct E as [Ha [Hb Hc]]. destruct Hperm as [Hq [Hp Ht]].
  unfold nonneg_fields; cbn. pose proof amount_zero.
  repeat split; trivial;
    match goal with
    | H : _ = a \/ _ = b \/ _ = c |- amount ?x =>
        destruct H as [-> | [-> | ->]]; assumption
    end.
Qed.

Lemma amount_leb x : amount x -> PrimFloat.leb 0 x = true.
Proof.
  unfold amount. rewrite leb_spec. change (Prim2SF 0) with (S754_zero false).
  apply Rounding.leb_zero_true.
Qed.

(** No extracted item has a negative or undefined amount: its quantity,
    price, tax and total are all [>= 0]. *)
Theorem extracted_amounts_nonneg text its :
  extract_line_items text = Ok its ->
  Forall (fun it => PrimFloat.leb 0 (quantity it) = true
                    /\ PrimFloat.leb 0 (price it) = true
                    /\ PrimFloat.leb 0 (tax it) = true
                    /\ PrimFloat.leb 0 (total it) = true) its.
Proof.
  intros H.
  assert (Hf : Forall nonneg_fields its).
  { revert H. apply (process_lines_invariant nonneg_fields); [|constructor].
    apply cascade_invariant. unfold tiers.
    repeat apply Forall_cons; [| | | |apply Forall_nil].
    - exact tier_general_fields.
    - exact tier_express_fields.
    - exact tier_express_alt_fields.
    - exact tier_legacy_fields. }
  eapply Forall_impl; [|exact Hf].
  intros it (Hq & Hp & Hx & Ht). repeat split; now apply amount_leb.
Qed.

Lemma extracted_amounts_nonneg_witness :
  Forall (fun it => PrimFloat.leb 0 (quantity it) = true
                    /\ PrimFloat.leb 0 (price it) = true
                    /\ PrimFloat.leb 0 (tax it) = true
                    /\ PrimFloat.leb 0 (total it) = true) [item_B].
Proof. apply (extracted_amounts_nonneg line_B). vm_compute. reflexivity. Defined.

Lemma total_of_amount m x : total_of m = Ok x -> amount x.
Proof.
  destruct m as [m|]; cbn.
  - apply float_group_amount.
  - intros [= <-]. exact amount_zero.
Qed.

(** The declared totals and the expected total of an extracted invoice
    are [>= 0]. *)
Theorem extracted_totals_nonneg invoice :
  extracted invoice ->
  PrimFloat.leb 0 (total_excl invoice) = true /\
  PrimFloat.leb 0 (total_incl invoice) = true /\
  PrimFloat.leb 0 (total_expected_of (items invoice)) = true.
Proof.
  intros [text [fname H]].
  pose proof (parse_invoice_data_items _ _ _ H) as Hits.
  unfold parse_invoice_data, extract_header in H.
  destruct (total_of (re_search total_excl_pattern text)) as [te|] eqn:Ee;
    [|discriminate].
  destruct (total_of (re_search total_incl_pattern text)) as [ti|] eqn:Ei;
    [|discriminate].
  cbn [bind] in H.
  destruct (extract_line_items text) as [its|] eqn:Ex; [|discriminate].
  cbn [bind] in H. injection H as <-.
  cbn [total_excl total_incl items h_total_excl h_total_incl].
  repeat split; apply amount_leb.
  - exact (total_of_amount _ _ Ee).
  - exact (total_of_amount _ _ Ei).
  - apply total_expected_amount.
    eapply extract_line_items_amounts. exact Ex.
Qed.

Lemma extracted_totals_nonneg_witness :
  PrimFloat.leb 0 (total_excl invoice_B) = true /\
  PrimFloat.leb 0 (total_incl invoice_B) = true /\
  PrimFloat.leb 0 (total_expected_of (items invoice_B)) = true.
Proof.
  apply extracted_totals_nonneg.
  exists line_B, "b.pdf". vm_compute. reflexivity.
Defined.

(** ** The summary of the results page *)

Lemma excel_row_total_incl invoice :
  dict_get "Total (Incl)" (excel_row invoice)
  = Some (Num (total_incl invoice)).
Proof.
  destruct invoice as [fn dt rf te ti its]. unfold excel_row. cbn [items].
  destruct its as [|a [|b [|c rest]]]; reflexivity.
Qed.

Lemma column_values_rows (k : string) (f : Invoice -> float) :
  (forall invoice, dict_get k (excel_row invoice) = Some (Num (f invoice))) ->
  forall extracted_data,
    column_values k (convert_to_excel_format extracted_data)
    = Some (map f extracted_data).
Proof.
  intros Hk. induction extracted_data as [|invoice data IH]; [reflexivity|].
  cbn [convert_to_excel_format map column_values].
  rewrite Hk. unfold convert_to_excel_format in IH. rewrite IH. reflexivity.
Qed.

(** The results page never fails on a missing or non-numeric cell: for
    any extracted data its summary is the number of invoices, the sum of
    their expected totals over all their items, and the sum of their
    declared totals. *)
Theorem results_summary_totals extracted_data :
  results_summary extracted_data
  = Some (mkSummary
            (List.length extracted_data)
            (Py.sum (map (fun invoice => total_expected_of (items invoice))
                         extracted_data))
            (Py.sum (map total_incl extracted_data))).
Proof.
  unfold results_summary.
  rewrite (column_values_rows "Total Expected"
             (fun invoice => total_expected_of (items invoice))
             excel_row_total_expected).
  rewrite (column_values_rows "Total (Incl)" total_incl excel_row_total_incl).
  unfold convert_to_excel_format. rewrite length_map. reflexivity.
Qed.

(** ** The summary of the debug page *)

Lemma not_declared_percent invoice :
  declares_total invoice = false ->
  d_discrepancy_percent (debug_info_of invoice) = 0%float.
Proof.
  unfold declares_total, debug_info_of. cbn [d_discrepancy_percent].
  intros ->. reflexivity.
Qed.

Lemma high_discrepancy_filter data :
  high_discrepancy_count (debug_summary data)
  = List.length
      (filter (fun invoice =>
                 PrimFloat.ltb 5 (d_discrepancy_percent (debug_info_of invoice)))
              data).
Proof.
  unfold debug_summary, debug_extraction. cbn [high_discrepancy_count].
  induction data as [|invoice data IH]; [reflexivity|].
  cbn [map filter].
  destruct (PrimFloat.ltb 5 (d_discrepancy_percent (debug_info_of invoice)));
    cbn [List.length]; now rewrite IH.
Qed.

(** An invoice that declares no total above zero is never counted as a
    high discrepancy, whatever its items add up to: the count is that of
    the invoices with a declared total alone, and at most their number. *)
Theorem undeclared_totals_are_not_flagged extracted_data :
  high_discrepancy_count (debug_summary extracted_data)
  = high_discrepancy_count
      (debug_summary (filter declares_total extracted_data)) /\
  high_discrepancy_count (debug_summary extracted_data)
  <= List.length (filter declares_total extracted_data) /\
  ds_total_invoices (debug_summary extracted_data)
  = List.length extracted_data.
Proof.
  rewrite !high_discrepancy_filter. repeat split.
  - induction extracted_data as [|invoice data IH]; [reflexivity|].
    cbn [filter]. destruct (declares_total invoice) eqn:Hd.
    + cbn [filter].
      destruct (PrimFloat.ltb 5 _); cbn [List.length]; now rewrite IH.
    + rewrite (not_declared_percent _ Hd).
      change (PrimFloat.ltb 5 0) with false. exact IH.
  - induction extracted_data as [|invoice data IH]; [apply Nat.le_refl|].
    cbn [filter]. destruct (declares_total invoice) eqn:Hd.
    + destruct (PrimFloat.ltb 5 _); cbn [List.length]; lia.
    + rewrite (not_declared_percent _ Hd).
      change (PrimFloat.ltb 5 0) with false. exact IH.
  - unfold debug_summary, debug_extraction. cbn [ds_total_invoices].
    apply length_map.
Qed.

Lemma sub_diag_finite m e :
  SF64sub (S754_finite false m e) (S754_finite false m e) = S754_zero false.
Proof.
  unfold SF64sub, SFsub. cbn [cond_Zopp].
  rewrite Z.min_id. destruct (shl_align m e e) as [m' e'].
  cbn [fst]. rewrite Z.sub_diag. reflexivity.
Qed.

(** An invoice whose items add up exactly to its declared total, a
    finite amount above zero, has discrepancy 0 and 0 percent, and is not
    counted as a high discrepancy. *)
Theorem exact_reconciliation invoice :
  total_expected_of (items invoice) = total_incl invoice ->
  PrimFloat.ltb 0 (total_incl invoice) = true ->
  PrimFloat.ltb (total_incl invoice) infinity = true ->
  d_discrepancy (debug_info_of invoice) = 0%float /\
  d_discrepancy_percent (debug_info_of invoice) = 0%float /\
  high_discrepancy_count (debug_summary [invoice]) = 0.
Proof.
  intros He Hpos Hfin.
  assert (Hx : exists m e, Prim2SF (total_incl invoice) = S754_finite false m e).
  { apply Rounding.positive_finite.
    - rewrite ltb_spec in Hpos. exact Hpos.
    - rewrite ltb_spec in Hfin. exact Hfin. }
  destruct Hx as [m [e Hx]].
  assert (Hd : (total_incl invoice - total_incl invoice = 0)%float).
  { apply Prim2SF_inj. rewrite sub_spec, Hx, sub_diag_finite. reflexivity. }
  assert (Hq : (0 / total_incl invoice = 0)%float).
  { apply Prim2SF_inj. rewrite div_spec, Hx. reflexivity. }
  assert (Hp : d_discrepancy_percent (debug_info_of invoice) = 0%float).
  { unfold debug_info_of. cbn [d_discrepancy_percent].
    rewrite Hpos, He, Hd. change (abs 0) with 0%float. rewrite Hq.
    reflexivity. }
  repeat split.
  - unfold debug_info_of. cbn [d_discrepancy]. rewrite He, Hd. reflexivity.
  - exact Hp.
  - rewrite high_discrepancy_filter. cbn [filter]. rewrite Hp. reflexivity.
Qed.

Lemma exact_reconciliation_witness :
  d_discrepancy (debug_info_of invoice_exact) = 0%float /\
  d_discrepancy_percent (debug_info_of invoice_exact) = 0%float /\
  high_discrepancy_count (debug_summary [invoice_exact]) = 0.
Proof. apply exact_reconciliation; reflexivity. Defined.

(** ** What a row keeps of its invoice *)

(** Two invoices give the same row exactly when they agree on the file
    name, the date, the reference, the declared total, the expected total
    and their first three items: the row keeps all of these, and nothing
    of the total before tax or of an item after the third but its share
    of the expected total. *)
Theorem excel_row_keeps a b :
  excel_row a = excel_row b <->
  filename a = filename b /\ date a = date b
  /\ our_reference a = our_reference b
  /\ total_incl a = total_incl b
  /\ total_expected_of (items a) = total_expected_of (items b)
  /\ firstn 3 (items a) = firstn 3 (items b).
Proof.
  destruct a as [fn dt rf te ti its], b as [fn' dt' rf' te' ti' its'].
  unfold excel_row. cbn [items filename date our_reference total_incl].
  generalize (total_expected_of its) as ea.
  generalize (total_expected_of its') as eb.
  intros eb ea.
  destruct its as [|[c1 d1 q1 u1 p1 x1 t1] [|[c2 d2 q2 u2 p2 x2 t2]
                  [|[c3 d3 q3 u3 p3 x3 t3] rest]]];
  destruct its' as [|[c1' d1' q1' u1' p1' x1' t1'] [|[c2' d2' q2' u2' p2' x2' t2']
                   [|[c3' d3' q3' u3' p3' x3' t3'] rest']]];
  vm_compute; split;
    try (intros H; inversion H; subst; repeat split; reflexivity);
    intros (H1 & H2 & H3 & H4 & H5 & H6); inversion H6; subst; reflexivity.
Qed.

(** ** The files of a folder *)

Section FolderFacts.

Variable read_pdf : string -> option (list string).
Variable folder_path : string.

Lemma process_files_step filename filenames extracted_data :
  process_files read_pdf folder_path (filename :: filenames) extracted_data
  = process_files read_pdf folder_path filenames
      (extracted_data ++ match record_of read_pdf folder_path filename with
                         | Some invoice_data => [invoice_data]
                         | None => []
                         end)%list.
Proof.
  cbn [process_files]. unfold record_of.
  destruct (is_pdf filename); [|now rewrite app_nil_r].
  destruct (String.eqb _ ""); [now rewrite app_nil_r|].
  destruct (parse_invoice_data _ filename); [reflexivity|].
  now rewrite app_nil_r.
Qed.

Lemma process_files_acc : forall filenames extracted_data,
  process_files read_pdf folder_path filenames extracted_data
  = (extracted_data ++ process_files read_pdf folder_path filenames [])%list.
Proof.
  induction filenames as [|filename filenames IH]; intros extracted_data.
  - cbn. now rewrite app_nil_r.
  - rewrite !process_files_step. rewrite IH.
    rewrite (IH ([] ++ _)%list). cbn [app]. now rewrite app_assoc.
Qed.

Lemma process_files_app : forall l1 l2,
  process_files read_pdf folder_path (l1 ++ l2) []
  = (process_files read_pdf folder_path l1 []
     ++ process_files read_pdf folder_path l2 [])%list.
Proof.
  induction l1 as [|filename l1 IH]; intros l2; [reflexivity|].
  cbn [app]. rewrite !process_files_step. cbn [app].
  rewrite process_files_acc, (process_files_acc l1), IH.
  now rewrite app_assoc.
Qed.

Lemma process_files_in filenames invoice :
  In invoice (process_files read_pdf folder_path filenames []) <->
  exists filename,
    In filename filenames
    /\ record_of read_pdf folder_path filename = Some invoice.
Proof.
  induction filenames as [|f filenames IH].
  - cbn. split; [tauto | intros [x [[] _]]].
  - rewrite process_files_step, process_files_acc. cbn [app].
    rewrite in_app_iff, IH. split.
    + intros [H | [x [Hx Hr]]].
      * exists f. split; [now left|].
        destruct (record_of read_pdf folder_path f) as [i|]; [|destruct H].
        destruct H as [-> | []]. reflexivity.
      * exists x. split; [now right | exact Hr].
    + intros [x [[-> | Hx] Hr]].
      * left. rewrite Hr. now left.
      * right. now exists x.
Qed.

Lemma process_files_length : forall filenames,
  List.length (process_files read_pdf folder_path filenames [])
  <= List.length (filter is_pdf filenames).
Proof.
  induction filenames as [|f filenames IH]; [apply Nat.le_refl|].
  rewrite process_files_step, process_files_acc. cbn [app filter].
  rewrite length_app. unfold record_of.
  destruct (is_pdf f); [|exact IH].
  destruct (String.eqb _ ""); [cbn; lia|].
  destruct (parse_invoice_data _ f); cbn; lia.
Qed.

End FolderFacts.

Lemma parse_invoice_data_filename text fname invoice :
  parse_invoice_data text fname = Some invoice -> filename invoice = fname.
Proof.
  unfold parse_invoice_data.
  destruct (extract_header text) as [h|]; [|discriminate]. simpl.
  destruct (extract_line_items text) as [its|]; [|discriminate]. simpl.
  intros [= <-]. reflexivity.
Qed.

Lemma record_of_some read_pdf folder_path f invoice :
  record_of read_pdf folder_path f = Some invoice ->
  is_pdf f = true /\ filename invoice = f /\ extracted invoice
  /\ exists pages, read_pdf (path_join folder_path f) = Some pages.
Proof.
  unfold record_of. destruct (is_pdf f); [|discriminate].
  unfold extract_text_from_pdf.
  destruct (read_pdf (path_join folder_path f)) as [pages|] eqn:Hr.
  - destruct (String.eqb _ ""); [discriminate|]. intros H.
    repeat split.
    + exact (parse_invoice_data_filename _ _ _ H).
    + eexists. eexists. exact H.
    + now exists pages.
  - cbn. discriminate.
Qed.

(** When the folder can be listed, the extracted data is what the method
    returns, and an invoice is in it exactly when one of the listed names
    gives it; each invoice carries the name of a listed file with a PDF
    extension that could be read, and is the parse of a text; there are
    at most as many invoices as names with a PDF extension. *)
Theorem process_folder_records listdir read_pdf folder_path filenames :
  listdir folder_path = Some filenames ->
  let extracted_data := fst (process_folder listdir read_pdf folder_path) in
  snd (process_folder listdir read_pdf folder_path) = Ok extracted_data /\
  (forall invoice,
     In invoice extracted_data <->
     exists filename,
       In filename filenames
       /\ record_of read_pdf folder_path filename = Some invoice) /\
  Forall (fun invoice =>
            In (filename invoice) filenames
            /\ is_pdf (filename invoice) = true
            /\ extracted invoice
            /\ exists pages,
                 read_pdf (path_join folder_path (filename invoice))
                 = Some pages)
         extracted_data /\
  List.length extracted_data <= List.length (filter is_pdf filenames).
Proof.
  intros Hl. unfold process_folder. rewrite Hl. cbn [fst snd].
  repeat split.
  - apply process_files_in.
  - apply process_files_in.
  - apply Forall_forall. intros invoice Hin.
    apply process_files_in in Hin. destruct Hin as [f [Hf Hr]].
    apply record_of_some in Hr. destruct Hr as (Hp & Hn & He & Hpages).
    rewrite Hn. tauto.
  - apply process_files_length.
Qed.

Lemma process_folder_records_witness :
  snd (process_folder folder_listing folder_pages "uploads")
  = Ok (fst (process_folder folder_listing folder_pages "uploads")) /\
  (forall invoice,
     In invoice (fst (process_folder folder_listing folder_pages "uploads")) <->
     exists filename,
       In filename ["b.PDF"; "notes.txt"]
       /\ record_of folder_pages "uploads" filename = Some invoice) /\
  Forall (fun invoice =>
            In (filename invoice) ["b.PDF"; "notes.txt"]
            /\ is_pdf (filename invoice) = true
            /\ extracted invoice
            /\ exists pages,
                 folder_pages (path_join "uploads" (filename invoice))
                 = Some pages)
         (fst (process_folder folder_listing folder_pages "uploads")) /\
  List.length (fst (process_folder folder_listing folder_pages "uploads"))
  <= List.length (filter is_pdf ["b.PDF"; "notes.txt"]).
Proof.
  apply (process_folder_records folder_listing folder_pages "uploads").
  reflexivity.
Defined.

(** Each file is handled on its own: the data of a listing is the data of
    its first part followed by the data of the rest. *)
Theorem process_folder_file_by_file read_pdf folder_path l1 l2 :
  fst (process_folder (fun _ => Some (l1 ++ l2)%list) read_pdf folder_path)
  = (fst (process_folder (fun _ => Some l1) read_pdf folder_path)
     ++ fst (process_folder (fun _ => Some l2) read_pdf folder_path))%list.
Proof.
  unfold process_folder. cbn [fst].
  apply process_files_app.
Qed.

Lemma process_files_skip read_pdf folder_path l1 l2 filename :
  record_of read_pdf folder_path filename = None ->
  process_files read_pdf folder_path (l1 ++ filename :: l2) []
  = process_files read_pdf folder_path (l1 ++ l2) [].
Proof.
  intros Hf. rewrite !process_files_app. f_equal.
  rewrite process_files_step, Hf. reflexivity.
Qed.

(** A name that gives no invoice (no PDF extension, a file that cannot be
    read or has no text, a text whose parsing raises) is passed over in
    silence: the method returns what it returns without that name. *)
Theorem process_folder_skips read_pdf folder_path l1 l2 filename :
  record_of read_pdf folder_path filename = None ->
  process_folder (fun _ => Some (l1 ++ filename :: l2)%list)
                 read_pdf folder_path
  = process_folder (fun _ => Some (l1 ++ l2)%list) read_pdf folder_path.
Proof.
  intros Hf. unfold process_folder.
  rewrite (process_files_skip _ _ _ _ _ Hf).
  reflexivity.
Qed.

Lemma process_folder_skips_witness :
  process_folder (fun _ => Some (["b.PDF"] ++ "notes.txt" :: ["c.pdf"])%list)
                 folder_pages "uploads"
  = process_folder (fun _ => Some (["b.PDF"] ++ ["c.pdf"])%list)
                   folder_pages "uploads".
Proof. apply process_folder_skips. reflexivity. Defined.

Lemma fold_append_blank : forall pages acc,
  Forall (fun page => page = "") pages -> fold_left append pages acc = acc.
Proof.
  induction pages as [|page pages IH]; intros acc H; [reflexivity|].
  inversion H as [|? ? Hp Hr]; subst. cbn [fold_left].
  rewrite IH by exact Hr. clear. induction acc as [|c acc IH]; cbn; congruence.
Qed.

(** A file that cannot be opened or read, and a file whose pages all
    have an empty text, give no invoice and no error: the data and the
    result are those of the folder without the file. *)
Theorem unreadable_file_is_passed_over read_pdf folder_path l1 l2 filename :
  read_pdf (path_join folder_path filename) = None
  \/ (exists pages, read_pdf (path_join folder_path filename) = Some pages
                    /\ Forall (fun page => page = "") pages) ->
  extract_text_from_pdf read_pdf (path_join folder_path filename) = "" /\
  process_folder (fun _ => Some (l1 ++ filename :: l2)%list)
                 read_pdf folder_path
  = process_folder (fun _ => Some (l1 ++ l2)%list) read_pdf folder_path.
Proof.
  intros H.
  assert (E : extract_text_from_pdf read_pdf (path_join folder_path filename)
              = "").
  { unfold extract_text_from_pdf.
    destruct H as [-> | [pages [-> Hp]]]; [reflexivity|].
    now apply fold_append_blank. }
  split; [exact E|].
  unfold process_folder. rewrite process_files_skip; [reflexivity|].
  unfold record_of. rewrite E.
  destruct (is_pdf filename); reflexivity.
Qed.

Lemma unreadable_file_is_passed_over_witness :
  extract_text_from_pdf (fun _ => None) (path_join "uploads" "bad.pdf") = "" /\
  process_folder (fun _ => Some (["a.pdf"] ++ "bad.pdf" :: ["c.pdf"])%list)
                 (fun _ => None) "uploads"
  = process_folder (fun _ => Some (["a.pdf"] ++ ["c.pdf"])%list)
                   (fun _ => None) "uploads".
Proof. apply unreadable_file_is_passed_over. left. reflexivity. Defined.

(** ** Names with a PDF extension *)

Lemma lower_app : forall a b, lower (a ++ b) = lower a ++ lower b.
Proof.
  induction a as [|c a IH]; intros b; [reflexivity|].
  cbn. now rewrite IH.
Qed.

Lemma lower_length : forall s, String.length (lower s) = String.length s.
Proof. induction s as [|c s IH]; [reflexivity|]. cbn. now rewrite IH. Qed.

Lemma lower_drop : forall n s, lower (drop n s) = drop n (lower s).
Proof.
  induction n as [|n IH]; intros [|c s]; try reflexivity. cbn. apply IH.
Qed.

Lemma drop_append : forall a b, drop (String.length a) (a ++ b) = b.
Proof. induction a as [|c a IH]; intros [|c' b]; cbn; auto. Qed.

Lemma length_append : forall a b,
  String.length (a ++ b) = String.length a + String.length b.
Proof. induction a as [|c a IH]; intros b; cbn; auto. Qed.

Lemma take_drop : forall n s, s = substring 0 n s ++ drop n s.
Proof.
  induction n as [|n IH]; intros [|c s]; try reflexivity.
  cbn. now rewrite <- IH.
Qed.

Lemma lower_char_dot c : lower_char c = "."%char -> c = "."%char.
Proof.
  destruct c as [[] [] [] [] [] [] [] []]; vm_compute; intros H;
    try discriminate H; reflexivity.
Qed.

Lemma lower_char_p c : lower_char c = "p"%char -> (c = "p" \/ c = "P")%char.
Proof.
  destruct c as [[] [] [] [] [] [] [] []]; vm_compute; intros H;
    try discriminate H; auto.
Qed.

Lemma lower_char_d c : lower_char c = "d"%char -> (c = "d" \/ c = "D")%char.
Proof.
  destruct c as [[] [] [] [] [] [] [] []]; vm_compute; intros H;
    try discriminate H; auto.
Qed.

Lemma lower_char_f c : lower_char c = "f"%char -> (c = "f" \/ c = "F")%char.
Proof.
  destruct c as [[] [] [] [] [] [] [] []]; vm_compute; intros H;
    try discriminate H; auto.
Qed.

Lemma lower_pdf ext : lower ext = ".pdf" <-> pdf_extension ext.
Proof.
  split.
  - destruct ext as [|c0 [|c1 [|c2 [|c3 [|c4 r]]]]]; try discriminate.
    cbn [lower]. intros [= H0 H1 H2 H3].
    apply lower_char_dot in H0. subst c0.
    exists c1, c2, c3. split; [reflexivity|].
    auto using lower_char_p, lower_char_d, lower_char_f.
  - intros (p & d & f & -> & Hp & Hd & Hf).
    destruct Hp as [-> | ->], Hd as [-> | ->], Hf as [-> | ->]; reflexivity.
Qed.

(** A name counts as a PDF file exactly when it ends with a point and the
    letters p, d, f, each in either case; nothing has to come before the
    point. *)
Theorem is_pdf_extension filename :
  is_pdf filename = true <->
  exists stem ext, filename = stem ++ ext /\ pdf_extension ext.
Proof.
  unfold is_pdf, endswith. rewrite lower_length. cbn [String.length].
  split.
  - intros H. apply andb_true_iff in H. destruct H as [Hlen Heq].
    apply Nat.leb_le in Hlen. apply String.eqb_eq in Heq.
    exists (substring 0 (String.length filename - 4) filename),
           (drop (String.length filename - 4) filename).
    split; [apply take_drop|].
    apply lower_pdf. rewrite lower_drop. exact Heq.
  - intros (stem & ext & -> & Hext).
    apply lower_pdf in Hext.
    assert (Hl : String.length ext = 4).
    { rewrite <- (lower_length ext), Hext. reflexivity. }
    rewrite length_append, Hl.
    replace (String.length stem + 4 - 4) with (String.length stem) by lia.
    rewrite lower_app, <- (lower_length stem), drop_append, Hext.
    apply andb_true_iff. split; [apply Nat.leb_le; lia | reflexivity].
Qed.

(** ** One line that raises *)

Lemma parse_invoice_data_raise text fname :
  extract_line_items text = Raise -> parse_invoice_data text fname = None.
Proof.
  unfold parse_invoice_data. intros H.
  destruct (extract_header text) as [h|]; [|reflexivity].
  cbn [bind]. rewrite H. reflexivity.
Qed.

(** A line on which the extraction of the items raises loses the whole
    document that holds it: whatever the text before and after the line,
    the items raise and the parser returns no invoice at all, not even
    the header or the items of the other lines. *)
Theorem one_line_loses_the_document h :
  extract_line_items h = Raise ->
  forall a b fname,
    extract_line_items (join_lines a (join_lines h b)) = Raise /\
    parse_invoice_data (join_lines a (join_lines h b)) fname = None.
Proof.
  intros Hh a b fname.
  assert (E : extract_line_items (join_lines a (join_lines h b)) = Raise).
  { rewrite !extract_line_items_join, Hh. cbn [bind].
    destruct (extract_line_items a); reflexivity. }
  split; [exact E | exact (parse_invoice_data_raise _ _ E)].
Qed.

Lemma one_line_loses_the_document_witness :
  extract_line_items
    (join_lines text_C (join_lines line_comma_legacy line_A)) = Raise /\
  parse_invoice_data
    (join_lines text_C (join_lines line_comma_legacy line_A)) "c.pdf" = None.
Proof.
  apply (one_line_loses_the_document line_comma_legacy).
  vm_compute. reflexivity.
Defined.

(** ** Where a tax comes from *)

Lemma tier_express_tax line it : tier_express line = Emit it -> tax it = 0%float.
Proof.
  unfold tier_express.
  destruct (re_match express_fuel_pattern line) as [m|]; [|discriminate].
  destruct (three_floats m 3 4 5) as [[[q p] t]|]; [|discriminate].
  destruct (express_check q p t); [|discriminate].
  intros [= <-]. reflexivity.
Qed.

Lemma tier_express_alt_tax line it :
  tier_express_alt line = Emit it -> tax it = 0%float.
Proof.
  unfold tier_express_alt.
  destruct (re_match express_alt_pattern line) as [m|]; [|discriminate].
  destruct (three_floats m 3 4 5) as [[[q p] t]|]; [|discriminate].
  destruct (express_check q p t); [|discriminate].
  intros [= <-]. reflexivity.
Qed.

Lemma tier_legacy_tax line it : tier_legacy line = Emit it -> tax it = 0%float.
Proof.
  unfold tier_legacy.
  destruct (re_search legacy_fuel_pattern line) as [m|]; [|discriminate].
  destruct (three_floats m 2 3 4) as [[[a b] c]|]; [|discriminate].
  destruct (is_fuel (strip (group m 1))); [|discriminate].
  destruct (legacy_assign a b c) as [[q p] t].
  intros [= <-]. reflexivity.
Qed.

(** Only the general tier reads a tax: every extracted item has tax 0
    unless it is the item of the general tier for a line, so the items of
    the three fuel tiers count in the expected total by their total
    alone. *)
Theorem tax_comes_from_the_general_tier text its :
  extract_line_items text = Ok its ->
  Forall taxed_by_general_only its.
Proof.
  apply (process_lines_invariant taxed_by_general_only); [|constructor].
  apply cascade_invariant. unfold tiers.
  repeat apply Forall_cons; [| | | |apply Forall_nil];
    intros line it H.
  - right. now exists line.
  - left. exact (tier_express_tax _ _ H).
  - left. exact (tier_express_alt_tax _ _ H).
  - left. exact (tier_legacy_tax _ _ H).
Qed.

Lemma tax_comes_from_the_general_tier_witness :
  Forall taxed_by_general_only [item_A; item_B].
Proof.
  apply (tax_comes_from_the_general_tier (join_lines line_A line_B)).
  vm_compute. reflexivity.
Defined.

(** ** Items and lines *)

(** Every extracted item is what the tiers give for one line of the text,
    stripped, a line that the filter of headings and blank lines let
    through; a line gives one item at most, so there are no more items
    than lines. *)
Theorem items_come_from_lines text its :
  extract_line_items text = Ok its ->
  Forall (fun it => exists line,
            In line (split_lines text) /\ skipped (strip line) = false
            /\ cascade tiers (strip line) = Emit it) its
  /\ List.length its <= List.length (split_lines text).
Proof.
  unfold extract_line_items. revert its.
  generalize (split_lines text) as lines.
  induction lines as [|raw lines IH]; intros its; cbn [process_lines].
  - intros [= <-]. split; [constructor | apply Nat.le_refl].
  - assert (Hw : forall its',
        Forall (fun it => exists line,
                  In line lines /\ skipped (strip line) = false
                  /\ cascade tiers (strip line) = Emit it) its' ->
        Forall (fun it => exists line,
                  In line (raw :: lines) /\ skipped (strip line) = false
                  /\ cascade tiers (strip line) = Emit it) its').
    { intros its'. apply Forall_impl. intros it [line [Hin H]].
      exists line. split; [now right | exact H]. }
    destruct (skipped (strip raw)) eqn:Hs.
    { intros H. destruct (IH _ H) as [Hf Hl]. split; [now apply Hw|].
      cbn [List.length]. lia. }
    destruct (cascade tiers (strip raw)) as [it| |] eqn:Hc.
    + rewrite process_lines_found.
      destruct (process_lines lines []) as [rest|]; [|discriminate].
      intros [= <-]. destruct (IH _ eq_refl) as [Hf Hl]. cbn [app]. split.
      * constructor; [|now apply Hw].
        exists raw. split; [now left | now split].
      * cbn [List.length]. lia.
    + intros H. destruct (IH _ H) as [Hf Hl]. split; [now apply Hw|].
      cbn [List.length]. lia.
    + discriminate.
Qed.

Lemma items_come_from_lines_witness :
  Forall (fun it => exists line,
            In line (split_lines (join_lines line_A line_B))
            /\ skipped (strip line) = false
            /\ cascade tiers (strip line) = Emit it) [item_A; item_B]
  /\ List.length [item_A; item_B]
     <= List.length (split_lines (join_lines line_A line_B)).
Proof.
  apply (items_come_from_lines (join_lines line_A line_B)).
  vm_compute. reflexivity.
Defined.
